(** * create_review_session.py: a shallow embedding and its properties

    The job pulls recent traces from an MLflow experiment, writes them to a
    Unity Catalog dataset, registers a label schema, creates a labeling
    session and optionally sends a Slack message.  The embedding has three
    layers:

    - [PyStr]: the Python [str] operations the script uses ([split],
      [strip], [join], [lower], [isalnum], [strftime]);
    - [Pandas]: the part of a DataFrame the script touches ([columns],
      [empty], [rename], [len]);
    - [Job]: the script itself, written in a small monad that records every
      call to an external service together with what the service answered. *)

From Stdlib Require Import String Ascii List NArith ZArith Bool Lia.
From Stdlib Require Import DecimalString QArith.
Import ListNotations.

Set Implicit Arguments.

(** ** Python strings *)

Module PyStr.

(** A Python [str] is a sequence of Unicode code points. *)
Definition codepoint := N.
Definition str := list codepoint.

(** An ASCII literal of the source, as a [str]. *)
Definition lit (s : string) : str := map N_of_ascii (list_ascii_of_string s).

Definition underscore : codepoint := 95%N.
Definition comma : codepoint := 44%N.

Definition str_eqb (a b : str) : bool :=
  if list_eq_dec N.eq_dec a b then true else false.

(** Truth value of a [str]: the empty string is falsy. *)
Definition truthy (s : str) : bool :=
  match s with [] => false | _ :: _ => true end.

(** [sep.join(parts)]. *)
Fixpoint join (sep : str) (parts : list str) : str :=
  match parts with
  | [] => []
  | [p] => p
  | p :: rest => p ++ sep ++ join sep rest
  end.

(** [s.split(sep)] for a one-character separator: the result is never empty,
    and an empty [s] gives one empty token. *)
Fixpoint split (sep : codepoint) (s : str) : list str :=
  match s with
  | [] => [[]]
  | c :: s' =>
      if N.eqb c sep then [] :: split sep s'
      else match split sep s' with
           | t :: ts => (c :: t) :: ts
           | [] => [[c]]
           end
  end.

(** The character database of the Python runtime is not part of the
    repository; the script's three uses of it are parameters. *)
Record Unicode : Type := {
  isalnum : codepoint -> bool;   (* [c.isalnum()] *)
  isspace : codepoint -> bool;   (* whitespace as [str.strip()] sees it *)
  lower : str -> str             (* [s.lower()] *)
}.

Section WithUnicode.
Variable U : Unicode.

Fixpoint lstrip (s : str) : str :=
  match s with
  | [] => []
  | c :: s' => if isspace U c then lstrip s' else s
  end.

Definition rstrip (s : str) : str := rev (lstrip (rev s)).

(** [s.strip()] *)
Definition strip (s : str) : str := rstrip (lstrip s).

(** [c if c.isalnum() or c == "_" else "_"] *)
Definition safe_char (c : codepoint) : str :=
  if isalnum U c || N.eqb c underscore then [c] else lit "_".

(** ["".join(c if c.isalnum() or c == "_" else "_" for c in prefix)] *)
Definition safe_prefix (prefix : str) : str :=
  join (lit "") (map safe_char prefix).

(** [[e.strip() for e in emails.split(",") if e.strip()]] *)
Definition parse_reviewer_emails (emails : str) : list str :=
  map strip (filter (fun e => truthy (strip e)) (split comma emails)).

End WithUnicode.

(** [str(n)] for an [int], as an f-string interpolates it. *)
Definition str_of_int (n : Z) : str :=
  lit (NilZero.string_of_int (Z.to_int n)).

(** *** Timestamps *)

(** The fields of a [datetime] that [strftime] reads. *)
Record datetime : Type := {
  year : N; month : N; day : N; hour : N; minute : N; second : N;
  microsecond : N
}.

Definition zero_pad (width : nat) (n : N) : str :=
  let digits := lit (NilZero.string_of_uint (N.to_uint n)) in
  repeat 48%N (width - List.length digits) ++ digits.

(** The conversion a directive letter stands for; the script uses
    [Y m d H M S], all zero-padded decimal numbers. *)
Definition directive (d : datetime) (c : codepoint) : option str :=
  if N.eqb c 89 then Some (zero_pad 4 (year d))         (* %Y *)
  else if N.eqb c 109 then Some (zero_pad 2 (month d))  (* %m *)
  else if N.eqb c 100 then Some (zero_pad 2 (day d))    (* %d *)
  else if N.eqb c 72 then Some (zero_pad 2 (hour d))    (* %H *)
  else if N.eqb c 77 then Some (zero_pad 2 (minute d))  (* %M *)
  else if N.eqb c 83 then Some (zero_pad 2 (second d))  (* %S *)
  else None.

(** [d.strftime(fmt)]: a percent sign and a known letter are replaced by the
    conversion, every other character is copied. *)
Fixpoint strftime (d : datetime) (fmt : str) : str :=
  match fmt with
  | [] => []
  | p :: tl =>
      match tl with
      | c :: rest =>
          if N.eqb p 37 then
            match directive d c with
            | Some field => field ++ strftime d rest
            | None => p :: strftime d tl
            end
          else p :: strftime d tl
      | [] => [p]
      end
  end.

(** The decimal digit of [n] at the given power of ten, as a character;
    used to spell out what a zero-padded field looks like. *)
Definition digit (power n : N) : codepoint :=
  N.add 48 (N.modulo (N.div n power) 10).

Definition two_digits (n : N) : str := [digit 10 n; digit 1 n].

Definition four_digits (n : N) : str :=
  [digit 1000 n; digit 100 n; digit 10 n; digit 1 n].

(** The ranges of the fields of a [datetime] object. *)
Definition valid_datetime (d : datetime) : Prop :=
  (1 <= year d <= 9999)%N /\ (1 <= month d <= 12)%N /\ (1 <= day d <= 31)%N
  /\ (hour d <= 23)%N /\ (minute d <= 59)%N /\ (second d <= 59)%N.

(** The number a string of decimal digits spells. *)
Definition digits_value (s : str) : N :=
  fold_left (fun acc c => N.add (N.mul 10 acc) (N.sub c 48)) s 0%N.

Definition dot : codepoint := 46%N.

(** The ASCII fragment of the character database, for concrete runs. *)
Definition between (lo hi c : N) : bool :=
  N.leb lo c && N.leb c hi.

Definition ascii_isalnum (c : codepoint) : bool :=
  between 48 57 c || between 65 90 c || between 97 122 c.

Definition ascii_isspace (c : codepoint) : bool :=
  between 9 13 c || between 28 32 c.

Definition ascii_lower_char (c : codepoint) : codepoint :=
  if between 65 90 c then N.add c 32%N else c.

Definition ascii : Unicode :=
  {| isalnum := ascii_isalnum;
     isspace := ascii_isspace;
     lower := map ascii_lower_char |}.

End PyStr.

(** ** DataFrames *)

Module Pandas.
Import PyStr.

Section WithCell.
Variable Cell : Type.

(** A table: its column labels and its rows.  A table can have rows and no
    columns (an index without data), and labels can repeat. *)
Record DataFrame : Type := {
  columns : list str;
  rows : list (list Cell)
}.

(** [len(df)] *)
Definition len (df : DataFrame) : nat := List.length (rows df).

(** [df.empty]: true when either axis has length zero. *)
Definition empty (df : DataFrame) : bool :=
  Nat.eqb (List.length (columns df)) 0 || Nat.eqb (List.length (rows df)) 0.

(** [label in df.columns] *)
Definition has_column (label : str) (df : DataFrame) : bool :=
  existsb (str_eqb label) (columns df).

Fixpoint lookup (mapper : list (str * str)) (label : str) : option str :=
  match mapper with
  | [] => None
  | (old, new) :: rest =>
      if str_eqb old label then Some new else lookup rest label
  end.

Definition rename_label (mapper : list (str * str)) (label : str) : str :=
  match lookup mapper label with
  | Some new => new
  | None => label
  end.

(** [df.rename(columns=mapper)]: a new table, every label found in the
    mapper replaced, rows untouched. *)
Definition rename (mapper : list (str * str)) (df : DataFrame) : DataFrame :=
  {| columns := map (rename_label mapper) (columns df);
     rows := rows df |}.

End WithCell.

End Pandas.

(** ** The job *)

Module Job.
Import PyStr Pandas.

(** What a call to a service gives back: a value, or a raised instance of
    Python's [Exception]. *)
Inductive result (E A : Type) : Type :=
| Ok (a : A)
| Err (e : E).
Arguments Ok {E A} a.
Arguments Err {E A} e.

(** The objects of the platform SDKs are opaque to the script; what it reads
    from them ([labeling_session.url], [user["user"]["id"]]) comes along. *)
Record Platform : Type := {
  unicode : Unicode;
  Exn : Type;
  Cell : Type;
  Dataset : Type;
  LabelingSession : Type;
  url : LabelingSession -> str;
  SlackResponse : Type;
  user_id : SlackResponse -> result Exn str
}.

(** The [argparse.Namespace] that [parse_args()] returns. *)
Record Namespace : Type := {
  experiment_id : str;
  num_traces : Z;
  reviewer_emails : str;
  session_name_prefix : str;
  uc_catalog : str;
  uc_schema : str;
  slack_secret_scope : str;
  notify_users : str
}.

(** [label_schemas.InputNumeric(min_value=..., max_value=...)] *)
Record InputNumeric : Type := {
  min_value : Q;
  max_value : Q
}.

(** A printed line, as the pieces of its f-string. *)
Inductive piece : Type :=
| Txt (text : string)
| Str (s : str)
| Int (n : Z)
| Repr (l : list str).

Definition ndash : str := [8211%N].
Definition bullet : str := [8226%N].
Definition newline : str := [10%N].

Definition LABEL_SCHEMA_NAME : str := lit "conversation_quality".

Definition LABEL_SCHEMA_INSTRUCTION : str :=
  lit "Review the conversation and rate the quality of the agent's response on a "
  ++ lit "1" ++ ndash ++ lit "5 scale:" ++ newline
  ++ lit "  1 " ++ ndash
  ++ lit " Very poor: response is incorrect, off-topic, or harmful" ++ newline
  ++ lit "  2 " ++ ndash
  ++ lit " Poor: response partially addresses the question but has major gaps"
  ++ newline
  ++ lit "  3 " ++ ndash
  ++ lit " Acceptable: response is generally correct but could be clearer"
  ++ newline
  ++ lit "  4 " ++ ndash
  ++ lit " Good: response is helpful, accurate, and easy to understand"
  ++ newline
  ++ lit "  5 " ++ ndash
  ++ lit " Excellent: response fully and clearly addresses the user's need"
  ++ newline ++ newline
  ++ lit "Please add a comment explaining your rating, especially for scores of 1 or 2.".

(** *** The pure parts of the script *)

Section Renames.
Variable Cell : Type.

(** The two conditional renames at the end of [_fetch_traces]. *)
Definition rename_request (traces_df : DataFrame Cell) : DataFrame Cell :=
  if has_column (lit "request") traces_df
     && negb (has_column (lit "inputs") traces_df)
  then rename [(lit "request", lit "inputs")] traces_df
  else traces_df.

Definition rename_response (traces_df : DataFrame Cell) : DataFrame Cell :=
  if has_column (lit "response") traces_df
     && negb (has_column (lit "outputs") traces_df)
  then rename [(lit "response", lit "outputs")] traces_df
  else traces_df.

End Renames.

Section Prelude.
Variable U : Unicode.

(** [datetime.now().strftime("%Y%m%d_%H%M%S")], given the clock reading. *)
Definition timestamp_of (now : datetime) : str :=
  strftime now (lit "%Y%m%d_%H%M%S").

(** [f"{safe_prefix}_{timestamp}"] *)
Definition session_name_of (args : Namespace) (now : datetime) : str :=
  safe_prefix U (session_name_prefix args) ++ lit "_" ++ timestamp_of now.

(** [f"{args.uc_catalog}.{args.uc_schema}.{session_name}"] *)
Definition uc_table_name_of (args : Namespace) (now : datetime) : str :=
  uc_catalog args ++ lit "." ++ uc_schema args ++ lit "."
  ++ session_name_of args now.

(** The test that guards step 7:
    [args.notify_users.lower() == "true" and args.slack_secret_scope]. *)
Definition notify_enabled (args : Namespace) : bool :=
  str_eqb (lower U (notify_users args)) (lit "true")
  && truthy (slack_secret_scope args).

End Prelude.

Section WithPlatform.
Variable P : Platform.

Let DataFrame : Type := Pandas.DataFrame (Cell P).

(** *** Calls that leave the process *)

Inductive call : Type :=
| py_import (module : string)
| SparkSession_builder_getOrCreate
| spark_sql (query : str)
| mlflow_set_tracking_uri (uri : str)
| mlflow_set_experiment (experiment_id : str)
| mlflow_search_traces (experiment_ids : list str) (max_results : Z)
    (order_by : list str) (return_type : str)
| get_dataset (name : str)
| create_dataset (name : str)
| merge_records (dataset : Dataset P) (records : DataFrame)
| create_label_schema (name type title : str) (input : InputNumeric)
    (instruction : str) (enable_comment overwrite : bool)
| create_labeling_session (name : str) (assigned_users : list str)
    (label_schemas : list str)
| add_dataset (session : LabelingSession P) (dataset_name : str)
| dbutils_secrets_get (scope key : str)
| users_lookupByEmail (token email : str)
| chat_postMessage (token channel text : str).

(** The type of what each call returns to the script. *)
Definition resp (c : call) : Type :=
  match c with
  | mlflow_search_traces _ _ _ _ => DataFrame
  | get_dataset _ | create_dataset _ => Dataset P
  | create_labeling_session _ _ _ | add_dataset _ _ => LabelingSession P
  | dbutils_secrets_get _ _ => str
  | users_lookupByEmail _ _ => SlackResponse P
  | _ => unit
  end.

(** What a run leaves behind, in order: the calls with their answers, the
    printed lines and the clock readings. *)
Inductive event : Type :=
| Ev (c : call) (r : result (Exn P) (resp c))
| Out (line : list piece)
| Now (d : datetime).

Definition history := list event.

(** The world outside the process.  An answer may depend on everything
    that happened before, so services with state are covered. *)
Record World : Type := {
  respond : history -> forall c : call, result (Exn P) (resp c);
  clock : history -> datetime
}.

(** *** The monad of the script *)

(** How a piece of the script ends: with a value, with a raised
    [Exception], or with [SystemExit], which [except Exception] does not
    catch. *)
Inductive outcome (A : Type) : Type :=
| Return (a : A)
| Raise (e : Exn P)
| SysExit (code : Z).
Arguments Return {A} a.
Arguments Raise {A} e.
Arguments SysExit {A} code.

Definition M (A : Type) : Type := World -> history -> outcome A * history.

Definition ret {A} (a : A) : M A := fun _ h => (Return a, h).

Definition bind {A B} (m : M A) (k : A -> M B) : M B :=
  fun w h =>
    match m w h with
    | (Return a, h') => k a w h'
    | (Raise e, h') => (Raise e, h')
    | (SysExit code, h') => (SysExit code, h')
    end.

(** [sys.exit(code)] *)
Definition sys_exit {A} (code : Z) : M A := fun _ h => (SysExit code, h).

(** [try: body  except Exception: handler] *)
Definition try_except {A} (body handler : M A) : M A :=
  fun w h =>
    match body w h with
    | (Raise _, h') => handler w h'
    | done => done
    end.

Definition perform (c : call) : M (resp c) :=
  fun w h =>
    match respond w h c with
    | Ok a => (Return a, h ++ [Ev c (Ok a)])
    | Err e => (Raise e, h ++ [Ev c (Err e)])
    end.

(** A local operation that may raise. *)
Definition lift {A} (r : result (Exn P) A) : M A :=
  fun _ h =>
    match r with
    | Ok a => (Return a, h)
    | Err e => (Raise e, h)
    end.

Definition print (line : list piece) : M unit :=
  fun _ h => (Return tt, h ++ [Out line]).

(** [datetime.now()] *)
Definition datetime_now : M datetime :=
  fun w h => (Return (clock w h), h ++ [Now (clock w h)]).

Local Notation "x <- m ;; k" := (bind m (fun x => k))
  (at level 100, m at next level, right associativity).
Local Notation "m ;; k" := (bind m (fun _ => k))
  (at level 100, right associativity).

(** *** The script, function by function *)

Definition _init_spark (uc_catalog uc_schema : str) : M unit :=
  perform (py_import "pyspark.sql") ;;
  perform SparkSession_builder_getOrCreate ;;
  perform (spark_sql (lit "CREATE SCHEMA IF NOT EXISTS `" ++ uc_catalog
                      ++ lit "`.`" ++ uc_schema ++ lit "`")).

Definition _get_secret (scope key : str) : M str :=
  perform (py_import "databricks.sdk.runtime") ;;
  perform (dbutils_secrets_get scope key).

(** [WebClient(token=token)] only stores the token, so the client is the
    token. *)
Definition _send_slack_notification (secret_scope session_name
    session_url : str) (reviewer_emails : list str) (num_traces : Z)
    : M unit :=
  perform (py_import "slack_sdk") ;;
  token <- _get_secret secret_scope (lit "slack-bot-token") ;;
  let client := token in
  let notify_email := lit "brennan.beal@databricks.com" in
  user <- perform (users_lookupByEmail client notify_email) ;;
  channel <- lift (user_id P user) ;;
  let reviewers_str :=
    match reviewer_emails with
    | [] => lit "(none)"
    | _ :: _ => join (lit ", ") reviewer_emails
    end in
  let text :=
    lit "*New agent review session created* :clipboard:" ++ newline
    ++ bullet ++ lit " *Session:* `" ++ session_name ++ lit "`" ++ newline
    ++ bullet ++ lit " *Traces:* " ++ str_of_int num_traces
    ++ lit " conversations to review" ++ newline
    ++ bullet ++ lit " *Reviewers:* " ++ reviewers_str ++ newline
    ++ bullet ++ lit " *Link:* " ++ session_url in
  perform (chat_postMessage client channel text) ;;
  print [Txt "  Slack notification sent to "; Str notify_email].

Definition _fetch_traces (experiment_id : str) (num_traces : Z)
    : M DataFrame :=
  traces_df <- perform (mlflow_search_traces [experiment_id] num_traces
                          [lit "attributes.timestamp_ms DESC"]
                          (lit "pandas")) ;;
  (if empty traces_df
   then print [Txt "ERROR: No traces found in this experiment."] ;;
        sys_exit 1
   else ret tt) ;;
  let traces_df := rename_request traces_df in
  let traces_df := rename_response traces_df in
  ret traces_df.

Definition _get_or_create_dataset (uc_table_name : str)
    : M (Dataset P) :=
  try_except
    (dataset <- perform (get_dataset uc_table_name) ;;
     print [Txt "  Reusing existing dataset: "; Str uc_table_name] ;;
     ret dataset)
    (dataset <- perform (create_dataset uc_table_name) ;;
     print [Txt "  Created new dataset: "; Str uc_table_name] ;;
     ret dataset).

Definition _ensure_label_schema : M unit :=
  perform (create_label_schema
             LABEL_SCHEMA_NAME
             (lit "feedback")
             (lit "Conversation Quality (1" ++ ndash ++ lit "5)")
             {| min_value := 1; max_value := 5 |}
             LABEL_SCHEMA_INSTRUCTION
             true
             true).

Definition rule : list piece := [Txt (String.concat "" (repeat "="%string 55))].

(** [main], with [args] what [parse_args()] returned. *)
Definition main (args : Namespace) : M unit :=
  let experiment_id := experiment_id args in
  let num_traces := num_traces args in
  let reviewer_emails :=
    parse_reviewer_emails (unicode P) (reviewer_emails args) in
  now <- datetime_now ;;
  let session_name := session_name_of (unicode P) args now in
  let uc_table_name := uc_table_name_of (unicode P) args now in
  print rule ;;
  print [Txt "  Agent Eval Review Session Creator"] ;;
  print rule ;;
  print [Txt "  Experiment ID  : "; Str experiment_id] ;;
  print [Txt "  Traces         : "; Int num_traces; Txt " most recent"] ;;
  print [Txt "  Reviewers      : ";
         match reviewer_emails with
         | [] => Txt "(none — set --reviewer-emails)"
         | _ :: _ => Repr reviewer_emails
         end] ;;
  print [Txt "  Session name   : "; Str session_name] ;;
  print [Txt "  Dataset path   : "; Str uc_table_name] ;;
  print [Txt "  Secret scope   : ";
         if truthy (slack_secret_scope args)
         then Str (slack_secret_scope args)
         else Txt "(not set — Slack notification skipped)"] ;;
  print rule ;;
  print [] ;;
  (* 1. Configure MLflow *)
  perform (mlflow_set_tracking_uri (lit "databricks")) ;;
  perform (mlflow_set_experiment experiment_id) ;;
  (* 2. Initialise Spark and ensure the UC schema exists *)
  print [Txt "Initialising Spark session and ensuring UC catalog/schema exist..."] ;;
  _init_spark (uc_catalog args) (uc_schema args) ;;
  (* 3. Fetch the last N traces *)
  print [Txt "Fetching "; Int num_traces;
         Txt " most recent traces from experiment "; Str experiment_id;
         Txt "..."] ;;
  traces_df <- _fetch_traces experiment_id num_traces ;;
  print [Txt "  Found "; Int (Z.of_nat (len traces_df)); Txt " traces."] ;;
  (* 4. Persist traces to a Unity Catalog dataset *)
  print [Txt "Writing traces to UC dataset..."] ;;
  dataset <- _get_or_create_dataset uc_table_name ;;
  perform (merge_records dataset traces_df) ;;
  print [Txt "  Merged "; Int (Z.of_nat (len traces_df)); Txt " records."] ;;
  (* 5. Register the label schema for reviewers *)
  print [Txt "Registering label schema..."] ;;
  _ensure_label_schema ;;
  print [Txt "  Schema '"; Str LABEL_SCHEMA_NAME; Txt "' ready."] ;;
  (* 6. Create the labeling session and attach the dataset *)
  print [Txt "Creating labeling session '"; Str session_name; Txt "'..."] ;;
  labeling_session <- perform (create_labeling_session session_name
                                 reviewer_emails [LABEL_SCHEMA_NAME]) ;;
  labeling_session <- perform (add_dataset labeling_session uc_table_name) ;;
  (* 7. Notify via Slack *)
  (if notify_enabled (unicode P) args
   then print [Txt "Sending Slack notification..."] ;;
        _send_slack_notification
          (slack_secret_scope args)
          session_name
          (url P labeling_session)
          reviewer_emails
          (Z.of_nat (len traces_df))
   else print [Txt "Skipping Slack notification (notify_users not set or no secret scope configured)."]) ;;
  (* 8. Done *)
  print [] ;;
  print rule ;;
  print [Txt "  Review session created successfully!"] ;;
  print rule ;;
  print [Txt "  Session URL : "; Str (url P labeling_session)] ;;
  print [Txt "  Reviewers   : "; Repr reviewer_emails] ;;
  print [Txt "  Traces      : "; Int (Z.of_nat (len traces_df))] ;;
  print rule.

(** *** Reading a run *)

(** A run of the script starts with nothing behind it. *)
Definition run_outcome (w : World) (args : Namespace) : outcome unit :=
  fst (main args w []).

Definition run_log (w : World) (args : Namespace) : history :=
  snd (main args w []).

(** The calls of a log, in order, without their answers. *)
Definition calls (log : history) : list call :=
  flat_map (fun e => match e with Ev c _ => [c] | _ => [] end) log.

(** The event is a call of the given class that returned. *)
Definition completed (class : call -> bool) (e : event) : bool :=
  match e with
  | Ev c (Ok _) => class c
  | _ => false
  end.

(** The event is a call of the given class, returned or not. *)
Definition attempted (class : call -> bool) (e : event) : bool :=
  match e with
  | Ev c _ => class c
  | _ => false
  end.

(** The event is a call of the given class that raised. *)
Definition failed (class : call -> bool) (e : event) : bool :=
  match e with
  | Ev c (Err _) => class c
  | _ => false
  end.

(** The table a returned trace query carries. *)
Definition table_of (e : event) : option DataFrame :=
  match e with
  | Ev c r =>
      match c as c0 return result (Exn P) (resp c0) -> option DataFrame with
      | mlflow_search_traces _ _ _ _ =>
          fun r => match r with Ok df => Some df | Err _ => None end
      | _ => fun _ => None
      end r
  | _ => None
  end.

Definition call_of (e : event) : option call :=
  match e with
  | Ev c _ => Some c
  | _ => None
  end.

(** The dataset a returned fetch or create carries. *)
Definition dataset_of (e : event) : option (Dataset P) :=
  match e with
  | Ev c r =>
      match c as c0 return result (Exn P) (resp c0) -> option (Dataset P) with
      | get_dataset _ | create_dataset _ =>
          fun r => match r with Ok d => Some d | Err _ => None end
      | _ => fun _ => None
      end r
  | _ => None
  end.

(** The answer a returned Slack user lookup carries. *)
Definition slack_response_of (e : event) : option (SlackResponse P) :=
  match e with
  | Ev c r =>
      match c as c0
            return result (Exn P) (resp c0) -> option (SlackResponse P) with
      | users_lookupByEmail _ _ =>
          fun r => match r with Ok u => Some u | Err _ => None end
      | _ => fun _ => None
      end r
  | _ => None
  end.

(** The exception a failed call raised. *)
Definition failure_of (e : event) : option (Exn P) :=
  match e with
  | Ev _ (Err x) => Some x
  | _ => None
  end.

(** Classes of calls. *)
Definition fetches_dataset (c : call) : bool :=
  match c with get_dataset _ => true | _ => false end.

Definition creates_dataset (c : call) : bool :=
  match c with create_dataset _ => true | _ => false end.

Definition merges (c : call) : bool :=
  match c with merge_records _ _ => true | _ => false end.

Definition registers_label_schema (c : call) : bool :=
  match c with create_label_schema _ _ _ _ _ _ _ => true | _ => false end.

Definition creates_session (c : call) : bool :=
  match c with create_labeling_session _ _ _ => true | _ => false end.

Definition attaches_dataset (c : call) : bool :=
  match c with add_dataset _ _ => true | _ => false end.

Fixpoint starts_with (prefix s : str) : bool :=
  match prefix, s with
  | [], _ => true
  | p :: prefix', c :: s' => N.eqb p c && starts_with prefix' s'
  | _ :: _, [] => false
  end.

(** A [CREATE SCHEMA] statement sent to the warehouse: it adds the schema
    to the catalog when the schema is not there yet. *)
Definition creates_uc_schema (c : call) : bool :=
  match c with
  | spark_sql query => starts_with (lit "CREATE SCHEMA ") query
  | _ => false
  end.

(** A mutation of a schema of either kind: the label schema of the review
    app or a schema of the catalog. *)
Definition mutates_schema (c : call) : bool :=
  registers_label_schema c || creates_uc_schema c.

(** The calls to the secret store and to Slack. *)
Definition chat_service_call (c : call) : bool :=
  match c with
  | dbutils_secrets_get _ _ | users_lookupByEmail _ _
  | chat_postMessage _ _ _ => true
  | _ => false
  end.

(** Every call [_send_slack_notification] can make, its imports included. *)
Definition notification_call (c : call) : bool :=
  match c with
  | py_import module =>
      String.eqb module "slack_sdk"
      || String.eqb module "databricks.sdk.runtime"
  | _ => chat_service_call c
  end.

(** Every event of the first kind in the log has an event of the second
    kind somewhere before it. *)
Definition preceded_by (late early : event -> bool) (log : history) : Prop :=
  forall pre e post,
    log = pre ++ e :: post -> late e = true -> existsb early pre = true.

(** The trace query of the run returned this table. *)
Definition traces_returned (log : history) (df : DataFrame) : Prop :=
  exists ids n order kind,
    In (Ev (mlflow_search_traces ids n order kind) (Ok df)) log.

(** Dataset resolution of the run returned this dataset. *)
Definition dataset_resolved (log : history) (dataset : Dataset P) : Prop :=
  exists name,
    In (Ev (get_dataset name) (Ok dataset)) log
    \/ In (Ev (create_dataset name) (Ok dataset)) log.

(** Control reached step 7: the session was created and the dataset
    attached to it. *)
Definition session_ready (log : history) : Prop :=
  exists session name attached,
    In (Ev (add_dataset session name) (Ok attached)) log.

(** The dataset, the label schema and the session are all in place by the
    end of this stretch of the log. *)
Definition all_created (pre : history) : Prop :=
  existsb (completed merges) pre = true
  /\ existsb (completed registers_label_schema) pre = true
  /\ existsb (completed creates_session) pre = true
  /\ existsb (completed attaches_dataset) pre = true.

Fixpoint preceded_byb (late early : event -> bool) (seen : bool)
    (log : history) : bool :=
  match log with
  | [] => true
  | e :: rest =>
      (if late e then seen else true)
      && preceded_byb late early (seen || early e) rest
  end.

(** More classes of calls, one per stage of the pipeline. *)
Definition sets_tracking_uri (c : call) : bool :=
  match c with mlflow_set_tracking_uri _ => true | _ => false end.

Definition sets_experiment (c : call) : bool :=
  match c with mlflow_set_experiment _ => true | _ => false end.

Definition starts_spark (c : call) : bool :=
  match c with SparkSession_builder_getOrCreate => true | _ => false end.

Definition issues_sql (c : call) : bool :=
  match c with spark_sql _ => true | _ => false end.

Definition queries_traces (c : call) : bool :=
  match c with mlflow_search_traces _ _ _ _ => true | _ => false end.

Definition resolves_dataset (c : call) : bool :=
  fetches_dataset c || creates_dataset c.

Definition fetches_secret (c : call) : bool :=
  match c with dbutils_secrets_get _ _ => true | _ => false end.

Definition looks_up_user (c : call) : bool :=
  match c with users_lookupByEmail _ _ => true | _ => false end.

Definition posts_message (c : call) : bool :=
  match c with chat_postMessage _ _ _ => true | _ => false end.

(** The session a returned session call carries. *)
Definition session_of (e : event) : option (LabelingSession P) :=
  match e with
  | Ev c r =>
      match c as c0
            return result (Exn P) (resp c0) -> option (LabelingSession P) with
      | create_labeling_session _ _ _ | add_dataset _ _ =>
          fun r => match r with Ok s => Some s | Err _ => None end
      | _ => fun _ => None
      end r
  | _ => None
  end.

(** The string a returned secret fetch carries. *)
Definition secret_of (e : event) : option str :=
  match e with
  | Ev c r =>
      match c as c0 return result (Exn P) (resp c0) -> option str with
      | dbutils_secrets_get _ _ =>
          fun r => match r with Ok s => Some s | Err _ => None end
      | _ => fun _ => None
      end r
  | _ => None
  end.

End WithPlatform.

Arguments py_import {P} module.
Arguments SparkSession_builder_getOrCreate {P}.
Arguments spark_sql {P} query.
Arguments mlflow_set_tracking_uri {P} uri.
Arguments mlflow_set_experiment {P} experiment_id.
Arguments mlflow_search_traces {P} experiment_ids max_results order_by
  return_type.
Arguments get_dataset {P} name.
Arguments create_dataset {P} name.
Arguments merge_records {P} dataset records.
Arguments create_label_schema {P} name type title input instruction
  enable_comment overwrite.
Arguments create_labeling_session {P} name assigned_users label_schemas.
Arguments add_dataset {P} session dataset_name.
Arguments dbutils_secrets_get {P} scope key.
Arguments users_lookupByEmail {P} token email.
Arguments chat_postMessage {P} token channel text.
Arguments Ev {P} c r.
Arguments Out {P} line.
Arguments Now {P} d.
Arguments calls {P} log.
Arguments completed {P} class e.
Arguments attempted {P} class e.
Arguments failed {P} class e.
Arguments call_of {P} e.
Arguments table_of {P} e.
Arguments dataset_of {P} e.
Arguments failure_of {P} e.
Arguments slack_response_of {P} e.
Arguments fetches_dataset {P} c.
Arguments creates_dataset {P} c.
Arguments merges {P} c.
Arguments registers_label_schema {P} c.
Arguments creates_session {P} c.
Arguments attaches_dataset {P} c.
Arguments creates_uc_schema {P} c.
Arguments mutates_schema {P} c.
Arguments chat_service_call {P} c.
Arguments notification_call {P} c.
Arguments preceded_by {P} late early log.
Arguments preceded_byb {P} late early seen log.
Arguments traces_returned {P} log df.
Arguments dataset_resolved {P} log dataset.
Arguments session_ready {P} log.
Arguments all_created {P} pre.
Arguments sets_tracking_uri {P} c.
Arguments sets_experiment {P} c.
Arguments starts_spark {P} c.
Arguments issues_sql {P} c.
Arguments queries_traces {P} c.
Arguments resolves_dataset {P} c.
Arguments fetches_secret {P} c.
Arguments looks_up_user {P} c.
Arguments posts_message {P} c.
Arguments session_of {P} e.
Arguments secret_of {P} e.
Arguments Return {P A} a.
Arguments Raise {P A} e.
Arguments SysExit {P A} code.
Arguments ret {P A} a.
Arguments sys_exit {P A} code.
Arguments lift {P A} r.
Arguments print {P} line.
Arguments datetime_now {P}.

Notation "x <- m ;; k" := (bind m (fun x => k))
  (at level 100, m at next level, right associativity).
Notation "m ;; k" := (bind m (fun _ => k))
  (at level 100, right associativity).

(** *** A concrete platform *)

(** Handles are names, exceptions are their messages, and a Slack lookup
    answers with the user id when the user exists. *)
Definition demo : Platform :=
  {| unicode := ascii;
     Exn := string;
     Cell := str;
     Dataset := str;
     LabelingSession := str;
     url := fun session => lit "https://workspace/review/" ++ session;
     SlackResponse := option str;
     user_id := fun response =>
       match response with
       | Some id => Ok id
       | None => Err "KeyError: 'user'"%string
       end |}.

Record Scenario : Type := {
  traces : DataFrame str;
  dataset_exists : bool;
  dataset_creatable : bool;
  slack_reachable : bool
}.

Definition demo_clock : datetime :=
  {| year := 2026; month := 3; day := 9; hour := 14; minute := 5;
     second := 7; microsecond := 123456 |}.

Definition demo_world (s : Scenario) : World demo :=
  {| respond := fun (_ : history demo) (c : call demo) =>
       match c as c0 return result (Exn demo) (resp c0) with
       | py_import _ => Ok tt
       | SparkSession_builder_getOrCreate => Ok tt
       | spark_sql _ => Ok tt
       | mlflow_set_tracking_uri _ => Ok tt
       | mlflow_set_experiment _ => Ok tt
       | mlflow_search_traces _ _ _ _ => Ok (traces s)
       | get_dataset name =>
           if dataset_exists s then Ok name
           else Err "RESOURCE_DOES_NOT_EXIST"%string
       | create_dataset name =>
           if dataset_creatable s then Ok name
           else Err "PERMISSION_DENIED"%string
       | merge_records _ _ => Ok tt
       | create_label_schema _ _ _ _ _ _ _ => Ok tt
       | create_labeling_session name _ _ => Ok name
       | add_dataset session _ => Ok session
       | dbutils_secrets_get _ _ => Ok (lit "xoxb-token")
       | users_lookupByEmail _ _ => Ok (Some (lit "U123"))
       | chat_postMessage _ _ _ =>
           if slack_reachable s then Ok tt
           else Err "SlackApiError"%string
       end;
     clock := fun _ => demo_clock |}.

Definition two_traces : DataFrame str :=
  {| columns := [lit "trace_id"; lit "request"; lit "response"];
     rows := [[lit "tr-1"; lit "hi"; lit "hello"];
              [lit "tr-2"; lit "bye"; lit "goodbye"]] |}.

Definition no_traces : DataFrame str :=
  {| columns := [lit "trace_id"; lit "request"; lit "response"];
     rows := [] |}.

(** Four situations the job can meet. *)
Definition all_well : Scenario :=
  {| traces := two_traces; dataset_exists := false;
     dataset_creatable := true; slack_reachable := true |}.

Definition empty_experiment : Scenario :=
  {| traces := no_traces; dataset_exists := false;
     dataset_creatable := true; slack_reachable := true |}.

Definition catalog_locked : Scenario :=
  {| traces := two_traces; dataset_exists := false;
     dataset_creatable := false; slack_reachable := true |}.

Definition slack_down : Scenario :=
  {| traces := two_traces; dataset_exists := true;
     dataset_creatable := true; slack_reachable := false |}.

(** A table with an index and no columns, and an experiment answering with
    it. *)
Definition rows_without_columns : DataFrame str :=
  {| columns := []; rows := [[]; []] |}.

Definition headless_table : Scenario :=
  {| traces := rows_without_columns; dataset_exists := false;
     dataset_creatable := true; slack_reachable := true |}.

(** A reading of the clock later in the same second as [demo_clock]. *)
Definition demo_clock_later : datetime :=
  {| year := 2026; month := 3; day := 9; hour := 14; minute := 5;
     second := 7; microsecond := 999999 |}.

Definition demo_args (scope notify : string) : Namespace :=
  {| experiment_id := lit "123";
     num_traces := 2;
     reviewer_emails := lit "a@x.com,b@x.com";
     session_name_prefix := lit "agent_review";
     uc_catalog := lit "main";
     uc_schema := lit "agent_review";
     slack_secret_scope := lit scope;
     notify_users := lit notify |}.

End Job.

(** * Properties *)

(** ** Strings: the sanitizer and the reviewer list *)

Module PyStrFacts.
Import PyStr.

Lemma join_empty_sep (parts : list str) : join [] parts = concat parts.
Proof.
  induction parts as [|p rest IH]; [reflexivity|].
  destruct rest as [|q rest].
  - simpl. now rewrite app_nil_r.
  - change (join [] (p :: q :: rest)) with (p ++ [] ++ join [] (q :: rest)).
    rewrite IH. reflexivity.
Qed.

Lemma split_not_nil (sep : codepoint) (s : str) : split sep s <> [].
Proof.
  destruct s as [|c s]; simpl; [discriminate|].
  destruct (N.eqb c sep); [discriminate|].
  destruct (split sep s); discriminate.
Qed.

Lemma join_split (sep : codepoint) (s : str) : join [sep] (split sep s) = s.
Proof.
  induction s as [|c s IH]; [reflexivity|].
  simpl split. destruct (N.eqb_spec c sep) as [->|Hne].
  - pose proof (split_not_nil sep s) as Hnil.
    destruct (split sep s) as [|t ts]; [contradiction|].
    change (join [sep] ([] :: t :: ts)) with ([] ++ [sep] ++ join [sep] (t :: ts)).
    rewrite IH. reflexivity.
  - pose proof (split_not_nil sep s) as Hnil.
    destruct (split sep s) as [|t ts]; [contradiction|].
    destruct ts as [|t' ts].
    + simpl in *. now rewrite IH.
    + change (join [sep] ((c :: t) :: t' :: ts))
        with (c :: (t ++ [sep] ++ join [sep] (t' :: ts))).
      change (join [sep] (t :: t' :: ts))
        with (t ++ [sep] ++ join [sep] (t' :: ts)) in IH.
      now rewrite IH.
Qed.

Lemma split_no_sep (sep : codepoint) (s : str) :
  Forall (fun t => ~ In sep t) (split sep s).
Proof.
  induction s as [|c s IH]; simpl.
  - constructor; [intros []|constructor].
  - destruct (N.eqb_spec c sep) as [->|Hne].
    + constructor; [intros []|exact IH].
    + destruct (split sep s) as [|t ts].
      * constructor; [|constructor]. intros [H|[]]. congruence.
      * inversion IH as [|? ? Ht Hts]; subst.
        constructor; [|exact Hts].
        intros [H|H]; [congruence|contradiction].
Qed.

Lemma split_app (sep : codepoint) (a b : str) :
  split sep (a ++ sep :: b) = split sep a ++ split sep b.
Proof.
  induction a as [|c a IH].
  - simpl. now rewrite N.eqb_refl.
  - simpl. destruct (N.eqb c sep).
    + now rewrite IH.
    + rewrite IH. pose proof (split_not_nil sep a) as Hnil.
      destruct (split sep a) as [|t ts]; [contradiction|reflexivity].
Qed.

Section Strip.
Variable U : Unicode.

Lemma lstrip_prefix (s : str) :
  exists l, s = l ++ lstrip U s /\ forallb (isspace U) l = true.
Proof.
  induction s as [|c s [l [Hs Hl]]].
  - exists []. split; reflexivity.
  - simpl. destruct (isspace U c) eqn:Hc.
    + exists (c :: l). simpl. rewrite Hc, Hl. split; [now f_equal|reflexivity].
    + exists []. split; reflexivity.
Qed.

Lemma lstrip_head (s : str) :
  match lstrip U s with
  | c :: _ => isspace U c = false
  | [] => True
  end.
Proof.
  induction s as [|c s IH]; simpl; [exact I|].
  destruct (isspace U c) eqn:Hc; [exact IH|exact Hc].
Qed.

Lemma lstrip_nil_iff (s : str) :
  lstrip U s = [] <-> forallb (isspace U) s = true.
Proof.
  induction s as [|c s IH]; simpl; [tauto|].
  destruct (isspace U c); simpl; [exact IH|].
  split; discriminate.
Qed.

Lemma lstrip_fixed (s : str) :
  match s with c :: _ => isspace U c = false | [] => True end ->
  lstrip U s = s.
Proof.
  destruct s as [|c s]; simpl; [reflexivity|].
  now intros ->.
Qed.

Lemma rstrip_suffix (s : str) :
  exists r, s = rstrip U s ++ r /\ forallb (isspace U) r = true.
Proof.
  unfold rstrip. destruct (lstrip_prefix (rev s)) as [l [Hs Hl]].
  exists (rev l). split.
  - rewrite <- rev_app_distr, <- Hs. now rewrite rev_involutive.
  - rewrite forallb_forall in *. intros c Hc. apply Hl.
    apply <- in_rev. exact Hc.
Qed.

Lemma rstrip_last (s : str) :
  match rev (rstrip U s) with
  | c :: _ => isspace U c = false
  | [] => True
  end.
Proof.
  unfold rstrip. rewrite rev_involutive. apply lstrip_head.
Qed.

Lemma rstrip_nil_iff (s : str) :
  rstrip U s = [] <-> forallb (isspace U) s = true.
Proof.
  unfold rstrip. split.
  - intros H. apply (f_equal (@rev _)) in H. rewrite rev_involutive in H.
    simpl in H. apply lstrip_nil_iff in H.
    rewrite forallb_forall in *. intros c Hc. apply H.
    apply -> in_rev. exact Hc.
  - intros H. assert (Hr : forallb (isspace U) (rev s) = true).
    { rewrite forallb_forall in *. intros c Hc. apply H.
      apply <- in_rev. exact Hc. }
    apply lstrip_nil_iff in Hr. now rewrite Hr.
Qed.

(** [rstrip] keeps the first character of whatever it leaves. *)
Lemma rstrip_head (s : str) :
  match s with c :: _ => isspace U c = false | [] => True end ->
  match rstrip U s with c :: _ => isspace U c = false | [] => True end.
Proof.
  intros Hs. destruct (rstrip_suffix s) as [r [Heq _]].
  destruct (rstrip U s) as [|c t]; [exact I|].
  rewrite Heq in Hs. exact Hs.
Qed.

Lemma strip_nil_iff (s : str) :
  strip U s = [] <-> forallb (isspace U) s = true.
Proof.
  unfold strip. rewrite rstrip_nil_iff. split.
  - intros H. pose proof (lstrip_head s) as Hh.
    destruct (lstrip U s) as [|c t] eqn:E.
    + now apply lstrip_nil_iff.
    + simpl in H. rewrite Hh in H. discriminate.
  - intros H. apply lstrip_nil_iff in H. now rewrite H.
Qed.

(** What [strip] removes is whitespace on both sides, and what it leaves
    neither starts nor ends with whitespace. *)
Lemma strip_spec (s : str) :
  (exists l r, s = l ++ strip U s ++ r
               /\ forallb (isspace U) l = true
               /\ forallb (isspace U) r = true)
  /\ match strip U s with c :: _ => isspace U c = false | [] => True end
  /\ match rev (strip U s) with c :: _ => isspace U c = false | [] => True end.
Proof.
  split; [|split].
  - destruct (lstrip_prefix s) as [l [Hl Hls]].
    destruct (rstrip_suffix (lstrip U s)) as [r [Hr Hrs]].
    exists l, r. unfold strip. rewrite <- Hr. auto.
  - apply rstrip_head, lstrip_head.
  - apply rstrip_last.
Qed.

Lemma strip_fixed (s : str) :
  match s with c :: _ => isspace U c = false | [] => True end ->
  match rev s with c :: _ => isspace U c = false | [] => True end ->
  strip U s = s.
Proof.
  intros Hh Hl. unfold strip. rewrite (lstrip_fixed _ Hh).
  unfold rstrip. rewrite (lstrip_fixed _ Hl). apply rev_involutive.
Qed.

Lemma strip_idempotent (s : str) : strip U (strip U s) = strip U s.
Proof.
  destruct (strip_spec s) as [_ [Hh Hl]]. now apply strip_fixed.
Qed.

Lemma safe_prefix_map (prefix : str) :
  safe_prefix U prefix
  = map (fun c => if isalnum U c || N.eqb c underscore then c
                  else underscore) prefix.
Proof.
  unfold safe_prefix. change (lit "") with (@nil codepoint).
  rewrite join_empty_sep.
  induction prefix as [|c prefix IH]; [reflexivity|].
  simpl. rewrite IH. unfold safe_char.
  destruct (isalnum U c || N.eqb c underscore); reflexivity.
Qed.

Lemma parse_app (a b : str) :
  parse_reviewer_emails U (a ++ comma :: b)
  = parse_reviewer_emails U a ++ parse_reviewer_emails U b.
Proof.
  unfold parse_reviewer_emails.
  now rewrite split_app, filter_app, map_app.
Qed.

Lemma parse_empty : parse_reviewer_emails U [] = [].
Proof. reflexivity. Qed.

End Strip.

(** C2: for every prefix, the sanitizer replaces each character that is
    neither alphanumeric nor an underscore by an underscore and keeps the
    others, so the output has only alphanumeric characters and underscores
    and is as long as the input. *)
Theorem sanitizer_output (U : Unicode) (prefix : str) :
  safe_prefix U prefix
  = map (fun c => if isalnum U c || N.eqb c underscore then c
                  else underscore) prefix
  /\ Forall (fun c => isalnum U c = true \/ c = underscore)
            (safe_prefix U prefix)
  /\ length (safe_prefix U prefix) = length prefix.
Proof.
  rewrite safe_prefix_map. split; [reflexivity|]. split.
  - apply Forall_map, Forall_forall. intros c _.
    destruct (isalnum U c) eqn:Ha; simpl; [now left|].
    destruct (N.eqb_spec c underscore); now right.
  - apply length_map.
Qed.

(** C10: the reviewer list is made of the comma-separated tokens of the
    argument, each stripped of surrounding whitespace, the tokens that are
    empty or all whitespace left out; an empty argument, a trailing comma or
    two commas in a row add no entry, and no entry is empty. *)
Theorem reviewer_list_parsed (U : Unicode) (emails : str) :
  let tokens := split comma emails in
  (join [comma] tokens = emails /\ Forall (fun t => ~ In comma t) tokens)
  /\ parse_reviewer_emails U emails
     = map (strip U)
         (filter (fun t => negb (forallb (isspace U) t)) tokens)
  /\ Forall (fun t =>
        (exists l r, t = l ++ strip U t ++ r
                     /\ forallb (isspace U) l = true
                     /\ forallb (isspace U) r = true)
        /\ match strip U t with
           | c :: _ => isspace U c = false
           | [] => True
           end
        /\ match rev (strip U t) with
           | c :: _ => isspace U c = false
           | [] => True
           end) tokens
  /\ Forall (fun e => e <> []) (parse_reviewer_emails U emails)
  /\ parse_reviewer_emails U [] = []
  /\ parse_reviewer_emails U (emails ++ [comma])
     = parse_reviewer_emails U emails
  /\ (forall rest,
        parse_reviewer_emails U (emails ++ comma :: comma :: rest)
        = parse_reviewer_emails U (emails ++ comma :: rest)).
Proof.
  intros tokens. repeat split.
  - apply join_split.
  - apply split_no_sep.
  - unfold parse_reviewer_emails. f_equal. apply filter_ext. intros t.
    destruct (forallb (isspace U) t) eqn:Hs.
    + apply strip_nil_iff in Hs. now rewrite Hs.
    + destruct (strip U t) eqn:Ht; [|reflexivity].
      apply strip_nil_iff in Ht. congruence.
  - apply Forall_forall. intros t _. apply strip_spec.
  - unfold parse_reviewer_emails. apply Forall_map, Forall_forall.
    intros t Ht. apply filter_In in Ht. destruct Ht as [_ Ht].
    now destruct (strip U t).
  - rewrite parse_app, parse_empty. apply app_nil_r.
  - intros rest. rewrite !parse_app.
    change (comma :: rest) with ([] ++ comma :: rest).
    now rewrite parse_app, parse_empty.
Qed.

(** *** The shape of a timestamp *)

Lemma below_forallb (check : N -> bool) (bound : nat) :
  forallb (fun k => check (N.of_nat k)) (seq 0 bound) = true ->
  forall n, (n < N.of_nat bound)%N -> check n = true.
Proof.
  intros H n Hn. rewrite forallb_forall in H.
  rewrite <- (N2Nat.id n). apply H. apply in_seq. lia.
Qed.

Lemma str_eqb_eq (a b : str) : str_eqb a b = true <-> a = b.
Proof.
  unfold str_eqb. destruct (list_eq_dec N.eq_dec a b); split;
    congruence || discriminate.
Qed.

Lemma zero_pad_two (n : N) : (n < 100)%N -> zero_pad 2 n = two_digits n.
Proof.
  intros Hn. apply str_eqb_eq.
  apply (below_forallb (fun n => str_eqb (zero_pad 2 n) (two_digits n))
           (N.to_nat 100));
    [vm_compute; reflexivity|exact Hn].
Qed.

Lemma zero_pad_four (n : N) : (n < 10000)%N -> zero_pad 4 n = four_digits n.
Proof.
  intros Hn. apply str_eqb_eq.
  apply (below_forallb (fun n => str_eqb (zero_pad 4 n) (four_digits n))
           (N.to_nat 10000));
    [vm_compute; reflexivity|exact Hn].
Qed.

Lemma strftime_fields (d : datetime) :
  strftime d (lit "%Y%m%d_%H%M%S")
  = zero_pad 4 (year d) ++ zero_pad 2 (month d) ++ zero_pad 2 (day d)
    ++ lit "_" ++ zero_pad 2 (hour d) ++ zero_pad 2 (minute d)
    ++ zero_pad 2 (second d).
Proof.
  cbn [lit list_ascii_of_string map N_of_ascii strftime].
  cbv -[zero_pad year month day hour minute second app].
  now rewrite app_nil_r.
Qed.

End PyStrFacts.

(** ** Tables: the two conditional renames *)

Module RenameFacts.
Import PyStr Pandas Job PyStrFacts.

Section Columns.
Variable Cell : Type.
Implicit Type df : DataFrame Cell.

Lemma str_eqb_refl (a : str) : str_eqb a a = true.
Proof. now apply str_eqb_eq. Qed.

Lemma rename_label_one (old new label : str) :
  rename_label [(old, new)] label
  = if str_eqb old label then new else label.
Proof.
  unfold rename_label. simpl. now destruct (str_eqb old label).
Qed.

Lemma has_column_rename (x old new : str) df :
  has_column x (rename [(old, new)] df)
  = existsb (fun label => str_eqb x (if str_eqb old label then new
                                     else label)) (columns df).
Proof.
  unfold has_column, rename. simpl.
  induction (columns df) as [|c cs IH]; [reflexivity|].
  simpl. now rewrite IH, rename_label_one.
Qed.

(** A rename leaves alone the labels it does not mention. *)
Lemma has_column_rename_other (x old new : str) df :
  str_eqb x old = false -> str_eqb x new = false ->
  has_column x (rename [(old, new)] df) = has_column x df.
Proof.
  intros Hold Hnew. rewrite has_column_rename. unfold has_column.
  induction (columns df) as [|c cs IH]; [reflexivity|].
  simpl. rewrite IH. f_equal.
  destruct (str_eqb old c) eqn:E; [|reflexivity].
  apply str_eqb_eq in E. subst c. now rewrite Hold, Hnew.
Qed.

(** After a rename the new label is there, when the old one was. *)
Lemma has_column_rename_new (old new : str) df :
  has_column old df = true ->
  has_column new (rename [(old, new)] df) = true.
Proof.
  rewrite has_column_rename. unfold has_column.
  induction (columns df) as [|c cs IH]; [discriminate|].
  simpl. destruct (str_eqb old c) eqn:E.
  - intros _. now rewrite str_eqb_refl.
  - simpl. intros H. rewrite (IH H). apply orb_true_r.
Qed.

Lemma rename_request_columns df :
  columns (rename_request df)
  = if has_column (lit "request") df && negb (has_column (lit "inputs") df)
    then map (fun label => if str_eqb (lit "request") label
                           then lit "inputs" else label) (columns df)
    else columns df.
Proof.
  unfold rename_request.
  destruct (has_column (lit "request") df
            && negb (has_column (lit "inputs") df)); [|reflexivity].
  simpl. apply map_ext. intros label. apply rename_label_one.
Qed.

Lemma rename_response_columns df :
  columns (rename_response df)
  = if has_column (lit "response") df
       && negb (has_column (lit "outputs") df)
    then map (fun label => if str_eqb (lit "response") label
                           then lit "outputs" else label) (columns df)
    else columns df.
Proof.
  unfold rename_response.
  destruct (has_column (lit "response") df
            && negb (has_column (lit "outputs") df)); [|reflexivity].
  simpl. apply map_ext. intros label. apply rename_label_one.
Qed.

Lemma rename_request_rows df : rows (rename_request df) = rows df.
Proof.
  unfold rename_request.
  now destruct (has_column (lit "request") df
                && negb (has_column (lit "inputs") df)).
Qed.

Lemma rename_response_rows df : rows (rename_response df) = rows df.
Proof.
  unfold rename_response.
  now destruct (has_column (lit "response") df
                && negb (has_column (lit "outputs") df)).
Qed.

(** The decision about one pair of labels does not see the other rename. *)
Lemma rename_request_keeps (x : str) df :
  str_eqb x (lit "request") = false -> str_eqb x (lit "inputs") = false ->
  has_column x (rename_request df) = has_column x df.
Proof.
  intros H1 H2. unfold rename_request.
  destruct (has_column (lit "request") df
            && negb (has_column (lit "inputs") df)); [|reflexivity].
  now apply has_column_rename_other.
Qed.

Lemma rename_response_keeps (x : str) df :
  str_eqb x (lit "response") = false -> str_eqb x (lit "outputs") = false ->
  has_column x (rename_response df) = has_column x df.
Proof.
  intros H1 H2. unfold rename_response.
  destruct (has_column (lit "response") df
            && negb (has_column (lit "outputs") df)); [|reflexivity].
  now apply has_column_rename_other.
Qed.

Lemma dataframe_eq df df' :
  columns df = columns df' -> rows df = rows df' -> df = df'.
Proof. destruct df, df'. simpl. now intros -> ->. Qed.

Lemma relabel_commute (label : str) :
  (if str_eqb (lit "response")
        (if str_eqb (lit "request") label then lit "inputs" else label)
   then lit "outputs"
   else if str_eqb (lit "request") label then lit "inputs" else label)
  = (if str_eqb (lit "request")
          (if str_eqb (lit "response") label then lit "outputs" else label)
     then lit "inputs"
     else if str_eqb (lit "response") label then lit "outputs" else label).
Proof.
  destruct (str_eqb (lit "request") label) eqn:E1.
  - apply str_eqb_eq in E1. subst label. reflexivity.
  - destruct (str_eqb (lit "response") label) eqn:E2.
    + apply str_eqb_eq in E2. subst label. reflexivity.
    + now rewrite E1.
Qed.

Lemma renames_commute df :
  rename_response (rename_request df) = rename_request (rename_response df).
Proof.
  apply dataframe_eq.
  - rewrite (rename_response_columns (rename_request df)).
    rewrite (rename_request_columns (rename_response df)).
    rewrite !rename_request_keeps, !rename_response_keeps by reflexivity.
    rewrite (rename_request_columns df), (rename_response_columns df).
    destruct (has_column (lit "request") df
              && negb (has_column (lit "inputs") df));
      destruct (has_column (lit "response") df
                && negb (has_column (lit "outputs") df));
      try reflexivity.
    rewrite !map_map. apply map_ext. intros label. apply relabel_commute.
  - now rewrite rename_response_rows, !rename_request_rows,
      rename_response_rows.
Qed.

Lemma rename_request_idempotent df :
  rename_request (rename_request df) = rename_request df.
Proof.
  unfold rename_request at 2 3.
  destruct (has_column (lit "request") df) eqn:Hreq;
    destruct (has_column (lit "inputs") df) eqn:Hin; simpl.
  - unfold rename_request. now rewrite Hreq, Hin.
  - unfold rename_request.
    rewrite (has_column_rename_new _ (lit "inputs") _ Hreq).
    now rewrite andb_false_r.
  - unfold rename_request. now rewrite Hreq.
  - unfold rename_request. now rewrite Hreq.
Qed.

Lemma rename_response_idempotent df :
  rename_response (rename_response df) = rename_response df.
Proof.
  unfold rename_response at 2 3.
  destruct (has_column (lit "response") df) eqn:Hres;
    destruct (has_column (lit "outputs") df) eqn:Hout; simpl.
  - unfold rename_response. now rewrite Hres, Hout.
  - unfold rename_response.
    rewrite (has_column_rename_new _ (lit "outputs") _ Hres).
    now rewrite andb_false_r.
  - unfold rename_response. now rewrite Hres.
  - unfold rename_response. now rewrite Hres.
Qed.

End Columns.

(** C5: each of the renames request->inputs and response->outputs is applied
    only when its target label is absent and its source label is present,
    and is decided without regard to the other; so the transformation
    changes nothing when inputs and outputs already exist, renames both when
    only request and response exist, and applying it twice is the same as
    applying it once. *)
Theorem conditional_renames (Cell : Type) (df : DataFrame Cell) :
  let normalized := rename_response (rename_request df) in
  let relabel (old new label : str) :=
    if str_eqb old label then new else label in
  (columns (rename_request df)
   = (if has_column (lit "request") df
         && negb (has_column (lit "inputs") df)
      then map (relabel (lit "request") (lit "inputs")) (columns df)
      else columns df)
   /\ columns (rename_response df)
      = (if has_column (lit "response") df
            && negb (has_column (lit "outputs") df)
         then map (relabel (lit "response") (lit "outputs")) (columns df)
         else columns df)
   /\ rows (rename_request df) = rows df
   /\ rows (rename_response df) = rows df)
  /\ (has_column (lit "response") (rename_request df)
      = has_column (lit "response") df
      /\ has_column (lit "outputs") (rename_request df)
         = has_column (lit "outputs") df
      /\ has_column (lit "request") (rename_response df)
         = has_column (lit "request") df
      /\ has_column (lit "inputs") (rename_response df)
         = has_column (lit "inputs") df
      /\ normalized = rename_request (rename_response df))
  /\ (has_column (lit "inputs") df = true ->
      has_column (lit "outputs") df = true ->
      normalized = df)
  /\ (has_column (lit "request") df = true ->
      has_column (lit "inputs") df = false ->
      has_column (lit "response") df = true ->
      has_column (lit "outputs") df = false ->
      columns normalized
      = map (fun label => relabel (lit "response") (lit "outputs")
                            (relabel (lit "request") (lit "inputs") label))
          (columns df)
      /\ rows normalized = rows df)
  /\ rename_response (rename_request normalized) = normalized.
Proof.
  intros normalized relabel. subst normalized relabel.
  split; [|split; [|split; [|split]]].
  - repeat split.
    + apply rename_request_columns.
    + apply rename_response_columns.
    + apply rename_request_rows.
    + apply rename_response_rows.
  - repeat split;
      try (apply rename_request_keeps; reflexivity);
      try (apply rename_response_keeps; reflexivity).
    apply renames_commute.
  - intros Hin Hout.
    assert (Hreq : rename_request df = df).
    { unfold rename_request. rewrite Hin. now rewrite andb_false_r. }
    rewrite Hreq. unfold rename_response. rewrite Hout.
    now rewrite andb_false_r.
  - intros Hreq Hin Hres Hout. split.
    + rewrite (rename_response_columns (rename_request df)).
      rewrite !rename_request_keeps by reflexivity.
      rewrite Hres, Hout, rename_request_columns, Hreq, Hin. simpl.
      now rewrite map_map.
    + now rewrite rename_response_rows, rename_request_rows.
  - rewrite <- (renames_commute (rename_request df)).
    rewrite rename_request_idempotent. apply rename_response_idempotent.
Qed.

(** A table with only the source labels gets both renamed. *)
Lemma conditional_renames_witness :
  columns (rename_response (rename_request two_traces))
  = [lit "trace_id"; lit "inputs"; lit "outputs"].
Proof.
  exact (proj1 (proj1 (proj2 (proj2 (proj2
    (conditional_renames two_traces))))
    eq_refl eq_refl eq_refl eq_refl)).
Defined.

End RenameFacts.

(** ** The job: what a run does *)

Module JobFacts.
Import PyStr Pandas Job PyStrFacts RenameFacts.

(** Running the script on an unknown world: unfold the monad, then split on
    each answer of the world in the order the script asks for it.  Every
    branch ends with a log that is a list of known events. *)

Ltac unfold_script :=
  cbv beta iota zeta delta
    [main bind perform ret print sys_exit try_except lift datetime_now
     _init_spark _get_secret _send_slack_notification _fetch_traces
     _get_or_create_dataset _ensure_label_schema fst snd];
  cbn [app].

Ltac run_step :=
  match goal with
  | |- context [respond ?w ?h ?c] =>
      let r := fresh "r" in
      let E := fresh "E" in
      destruct (respond w h c) as [r|r]; unfold_script
  | |- context [user_id ?P ?u] =>
      let E := fresh "E" in destruct (user_id P u) eqn:E; unfold_script
  | |- context [if empty ?d then _ else _] =>
      let E := fresh "Eempty" in destruct (empty d) eqn:E; unfold_script
  | |- context [if notify_enabled ?U ?a then _ else _] =>
      let E := fresh "Enotify" in
      destruct (notify_enabled U a) eqn:E; unfold_script
  end.

(** Membership in a known log, one event at a time. *)
Ltac in_cases H :=
  cbn [In] in H;
  repeat match type of H with _ \/ _ => destruct H as [H|H] end;
  try contradiction.

(** Two events are equal: read off their calls, failures and tables. *)
Ltac ev_eq H :=
  first
    [ discriminate H
    | let Hc := fresh "Hc" in
      pose proof (f_equal call_of H) as Hc; cbn [call_of] in Hc;
      first [ discriminate Hc | injection Hc as Hc ]
    ];
  try (let Hf := fresh "Hf" in
       pose proof (f_equal failure_of H) as Hf; cbn [failure_of] in Hf;
       first [ discriminate Hf | injection Hf as Hf | clear Hf ]);
  try (let Ht := fresh "Ht" in
       pose proof (f_equal table_of H) as Ht; cbn [table_of] in Ht;
       first [ discriminate Ht | injection Ht as Ht | clear Ht ]).

(** Keep a large conclusion folded while the hypotheses are taken apart. *)
Ltac hide_goal :=
  match goal with |- ?G => let X := fresh "Hidden" in set (X := G) end.

Ltac show_goal :=
  match goal with X := _ |- _ => subst X end.

Ltac run_main :=
  unfold run_outcome, run_log;
  match goal with
  | |- context [main ?a ?w []] => pattern (main a w [])
  end;
  match goal with
  | |- ?Q _ =>
      let X := fresh "Q" in
      set (X := Q); unfold main; unfold_script; repeat run_step;
      subst X; cbv beta; cbn [fst snd]
  end.

Section WithPlatform.
Variable P : Platform.

(** C4: dataset resolution first attempts the fetch by name; when the fetch
    raises, whatever the exception, exactly one create by name follows, with
    the same name, and its dataset (or its exception) is the result; when
    the fetch returns, no create is made and the fetched dataset is the
    result. *)
Theorem dataset_resolution (w : World P) (h : history P) (name : str) :
  let fetch := respond w h (get_dataset name) in
  let out := fst (_get_or_create_dataset name w h) in
  let log := snd (_get_or_create_dataset name w h) in
  exists new,
    log = h ++ new
    /\ hd_error new = Some (Ev (get_dataset name) fetch)
    /\ filter fetches_dataset (calls new) = [get_dataset name]
    /\ match fetch with
       | Ok dataset =>
           filter creates_dataset (calls new) = [] /\ out = Return dataset
       | Err _ =>
           filter creates_dataset (calls new) = [create_dataset name]
           /\ exists create,
               In (Ev (create_dataset name) create) new
               /\ out = match create with
                        | Ok dataset => Return dataset
                        | Err e => Raise e
                        end
       end.
Proof.
  cbv zeta. unfold _get_or_create_dataset. unfold_script.
  destruct (respond w h (get_dataset name)) as [dataset|e] eqn:Efetch;
    unfold_script.
  - eexists. rewrite <- !app_assoc. split; [reflexivity|].
    repeat split.
  - destruct (respond w (h ++ [Ev (get_dataset name) (Err e)])
                (create_dataset name)) as [dataset|e'] eqn:Ecreate;
      unfold_script; eexists; rewrite <- !app_assoc;
      (split; [reflexivity|]); repeat split; eexists;
      (split; [right; left; reflexivity|reflexivity]).
Qed.


Lemma empty_no_rows (df : DataFrame (Cell P)) : rows df = [] -> empty df = true.
Proof. unfold empty. intros ->. apply orb_true_r. Qed.

Lemma empty_false (df : DataFrame (Cell P)) :
  rows df <> [] -> columns df <> [] -> empty df = false.
Proof.
  unfold empty. destruct (rows df), (columns df); simpl; congruence.
Qed.

(** C1, amended: in every run whose trace query returns zero rows the
    process exits with status 1; no dataset is fetched or created, no record
    merged, no label schema registered and no labeling session created or
    extended.  The calls made before the exit are the two MLflow settings,
    the Spark start-up, the [CREATE SCHEMA IF NOT EXISTS] statement of step
    2 and the trace query, in this order. *)
Theorem zero_traces_exit (w : World P) (args : Namespace)
    (df : DataFrame (Cell P)) :
  traces_returned (run_log w args) df -> rows df = [] ->
  run_outcome w args = SysExit 1
  /\ calls (run_log w args)
     = [mlflow_set_tracking_uri (lit "databricks");
        mlflow_set_experiment (experiment_id args);
        py_import "pyspark.sql";
        SparkSession_builder_getOrCreate;
        spark_sql (lit "CREATE SCHEMA IF NOT EXISTS `" ++ uc_catalog args
                   ++ lit "`.`" ++ uc_schema args ++ lit "`");
        mlflow_search_traces [experiment_id args] (num_traces args)
          [lit "attributes.timestamp_ms DESC"] (lit "pandas")]
  /\ forall c, In c (calls (run_log w args)) ->
       fetches_dataset c = false /\ creates_dataset c = false
       /\ merges c = false /\ registers_label_schema c = false
       /\ creates_session c = false /\ attaches_dataset c = false.
Proof.
  intros [ids [n [order [kind Hin]]]] Hrows. revert Hin.
  run_main.
  all: intros Hin; hide_goal; in_cases Hin; try (ev_eq Hin); show_goal.
  all: subst; try (rewrite (empty_no_rows _ Hrows) in Eempty; discriminate).
  cbn [calls flat_map app]. split; [reflexivity|]. split; [reflexivity|].
  intros c Hc. in_cases Hc; subst c; repeat split; reflexivity.
Qed.


(** C8: on every successful run the label schema is registered exactly once,
    under the fixed name conversation_quality, with one numeric input from 1
    to 5, comments enabled and the overwrite flag set; this holds in every
    world, whatever schema was registered there before. *)
Theorem label_schema_registered (w : World P) (args : Namespace) :
  run_outcome w args = Return tt ->
  filter registers_label_schema (calls (run_log w args))
  = [create_label_schema (lit "conversation_quality") (lit "feedback")
       (lit "Conversation Quality (1" ++ ndash ++ lit "5)")
       {| min_value := 1; max_value := 5 |}
       LABEL_SCHEMA_INSTRUCTION true true].
Proof.
  run_main.
  all: intros H; try discriminate H; reflexivity.
Qed.

Ltac in_solve := cbn [In]; repeat (first [left; reflexivity | right]).

(** C6, amended: in every run whose trace query returns a table of N >= 1
    rows (with at least one column) and whose dataset resolution returns a
    dataset, the merge is called exactly once, on that dataset, with the
    fetched table after the two conditional renames; the rows are the
    fetched ones, in the same order. *)
Theorem merge_receives_traces (w : World P) (args : Namespace)
    (df : DataFrame (Cell P)) :
  traces_returned (run_log w args) df ->
  rows df <> [] -> columns df <> [] ->
  (exists dataset, dataset_resolved (run_log w args) dataset) ->
  let merged := rename_response (rename_request df) in
  (exists dataset,
      dataset_resolved (run_log w args) dataset
      /\ filter merges (calls (run_log w args))
         = [merge_records dataset merged])
  /\ rows merged = rows df
  /\ len merged = len df.
Proof.
  intros [ids [n [order [kind Hin]]]] Hrows Hcols [dataset [name Hres]] merged.
  split.
  2:{ unfold merged, len.
      now rewrite rename_response_rows, rename_request_rows. }
  subst merged. revert Hin Hres.
  run_main.
  all: intros Hin Hres; hide_goal; in_cases Hin; try (ev_eq Hin); show_goal.
  all: subst; try (rewrite (empty_false _ Hrows Hcols) in Eempty; discriminate).
  all: try (eexists; split;
            [|cbn [calls flat_map app filter merges]; reflexivity];
            eexists; first [left; solve [in_solve] | right; solve [in_solve]]).
  all: hide_goal; destruct Hres as [Hres|Hres]; in_cases Hres; ev_eq Hres.
Qed.

Lemma notify_enabled_iff (U : Unicode) (args : Namespace) :
  notify_enabled U args = true
  <-> lower U (notify_users args) = lit "true"
      /\ slack_secret_scope args <> [].
Proof.
  unfold notify_enabled. rewrite andb_true_iff, str_eqb_eq.
  destruct (slack_secret_scope args); simpl; intuition congruence.
Qed.

Lemma no_chat_calls (l : list (call P)) :
  (forall c, In c l -> notification_call c = false) ->
  filter chat_service_call l = [].
Proof.
  induction l as [|c cs IH]; [reflexivity|].
  intros H. simpl.
  pose proof (H c (or_introl eq_refl)) as Hc.
  assert (Hcs : filter chat_service_call cs = [])
    by (apply IH; intros c' Hc'; apply H; now right).
  destruct c; simpl in *; try exact Hcs; discriminate.
Qed.

Lemma gate_core (w : World P) (args : Namespace) :
  (notify_enabled (unicode P) args = false ->
   filter notification_call (calls (run_log w args)) = [])
  /\ (session_ready (run_log w args) ->
      notify_enabled (unicode P) args = true ->
      In (Out [Txt "Sending Slack notification..."]) (run_log w args)
      /\ In (py_import "slack_sdk") (calls (run_log w args))
      /\ hd_error (filter notification_call (calls (run_log w args)))
         = Some (py_import "slack_sdk")
      /\ (existsb (failed notification_call) (run_log w args) = true
          \/ (exists token email response e,
                In (Ev (users_lookupByEmail token email) (Ok response))
                   (run_log w args)
                /\ user_id P response = Err e)
          \/ existsb (attempted posts_message) (run_log w args) = true)).
Proof.
  run_main.
  all: split;
    [ intros Hoff; first [reflexivity | congruence]
    | intros [session [name [attached Hin]]] Hon ].
  all: try (split; [solve [in_solve]|];
            split; [cbn [calls flat_map app]; solve [in_solve]|];
            split; [reflexivity|];
            first [ left; reflexivity
                  | right; right; reflexivity
                  | right; left; do 4 eexists;
                    split; [solve [in_solve]|eassumption] ]).
  all: try congruence.
  all: hide_goal; in_cases Hin; ev_eq Hin.
Qed.

(** C3, amended: in every run a call of the notification step is made only
    if the notify flag, lowercased, is "true" and the secret scope is not
    empty, and for every other pair of the two arguments no secret is
    fetched, no user looked up and no message posted.  In every run that
    reaches step 7 (the dataset is attached to the session) with the
    condition true, the step executes: its line is printed, its first call
    is the import of [slack_sdk], and it goes on to post the message unless
    one of its calls raises or the lookup answer has no user id. *)
Theorem notification_gate (w : World P) (args : Namespace) :
  let enabled := lower (unicode P) (notify_users args) = lit "true"
                 /\ slack_secret_scope args <> [] in
  ((exists c, In c (calls (run_log w args)) /\ notification_call c = true)
   -> enabled)
  /\ (~ enabled ->
      filter notification_call (calls (run_log w args)) = []
      /\ filter chat_service_call (calls (run_log w args)) = [])
  /\ (session_ready (run_log w args) -> enabled ->
      In (Out [Txt "Sending Slack notification..."]) (run_log w args)
      /\ In (py_import "slack_sdk") (calls (run_log w args))
      /\ hd_error (filter notification_call (calls (run_log w args)))
         = Some (py_import "slack_sdk")
      /\ (existsb (failed notification_call) (run_log w args) = true
          \/ (exists token email response e,
                In (Ev (users_lookupByEmail token email) (Ok response))
                   (run_log w args)
                /\ user_id P response = Err e)
          \/ existsb (attempted posts_message) (run_log w args) = true)).
Proof.
  intros enabled. destruct (gate_core w args) as [Hoff Hon].
  assert (Hnone : notify_enabled (unicode P) args = false ->
                  forall c, In c (calls (run_log w args)) ->
                            notification_call c = false).
  { intros H c Hc. destruct (notification_call c) eqn:E; [|reflexivity].
    assert (Hf : In c (filter notification_call (calls (run_log w args))))
      by (apply filter_In; auto).
    rewrite (Hoff H) in Hf. contradiction. }
  split; [|split].
  - intros [c [Hc Hn]]. apply notify_enabled_iff.
    apply not_false_iff_true. intros E.
    rewrite (Hnone E c Hc) in Hn. discriminate.
  - intros Hno.
    assert (E : notify_enabled (unicode P) args = false).
    { apply not_true_iff_false. intros E. apply Hno.
      now apply notify_enabled_iff. }
    split; [exact (Hoff E)|].
    apply no_chat_calls. exact (Hnone E).
  - intros Hready Hen. apply Hon; [exact Hready|].
    now apply notify_enabled_iff.
Qed.

Lemma preceded_byb_seen (late early : event P -> bool) (log : history P) :
  forall seen, preceded_byb late early seen log = true ->
  forall pre e post, log = pre ++ e :: post -> late e = true ->
                     seen || existsb early pre = true.
Proof.
  induction log as [|x rest IH]; intros seen Hb pre e post Hlog Hlate.
  - destruct pre; discriminate.
  - simpl in Hb. apply andb_true_iff in Hb. destruct Hb as [Hx Hrest].
    destruct pre as [|y pre]; simpl in Hlog; injection Hlog as -> ->.
    + rewrite Hlate in Hx. now rewrite Hx.
    + simpl. rewrite orb_assoc. now apply (IH (seen || early y) Hrest pre e post).
Qed.

Lemma preceded_byb_sound (late early : event P -> bool) (log : history P) :
  preceded_byb late early false log = true -> preceded_by late early log.
Proof.
  intros Hb pre e post Hlog Hlate.
  exact (@preceded_byb_seen late early log false Hb pre e post Hlog Hlate).
Qed.

Ltac split_last :=
  match goal with
  | |- exists pre, ?l = pre ++ _ /\ _ => exists (removelast l)
  end;
  split; [reflexivity|repeat split; reflexivity].

Ltac failing_call_case :=
  let xc := fresh "xc" in
  let xe := fresh "xe" in
  let Hin := fresh "Hin" in
  let Hn := fresh "Hn" in
  let Hf := fresh "Hf" in
  let Hc := fresh "Hc" in
  intros xc xe Hin Hn; hide_goal; in_cases Hin; try discriminate Hin;
  (pose proof (f_equal failure_of Hin) as Hf; cbn [failure_of] in Hf;
   try discriminate Hf; injection Hf as Hf);
  (pose proof (f_equal call_of Hin) as Hc; cbn [call_of] in Hc;
   injection Hc as Hc);
  subst; try discriminate Hn; show_goal;
  (split; [reflexivity|split_last]).

Ltac failing_lookup_case :=
  let xt := fresh "xt" in
  let xm := fresh "xm" in
  let xr := fresh "xr" in
  let xe := fresh "xe" in
  let Hin := fresh "Hin" in
  let Hid := fresh "Hid" in
  let Hr := fresh "Hr" in
  let Hc := fresh "Hc" in
  intros xt xm xr xe Hin Hid; hide_goal; in_cases Hin;
  try discriminate Hin;
  (pose proof (f_equal call_of Hin) as Hc; cbn [call_of] in Hc;
   try discriminate Hc);
  (pose proof (f_equal slack_response_of Hin) as Hr;
   cbn [slack_response_of] in Hr; try discriminate Hr; injection Hr as Hr);
  injection Hc as ? ?;
  subst; try congruence; show_goal;
  (split; [congruence|split_last]).

(** C9: every call of the notification step comes after the merge, the
    label-schema registration, the session creation and the attachment of
    the dataset have returned; an exception raised inside the step (by one
    of its calls, or by reading the user id out of the lookup answer) ends
    the run with that exception, nothing being called after it, so what was
    created stays. *)
Theorem notification_after_creation (w : World P) (args : Namespace) :
  (preceded_by (attempted notification_call) (completed merges)
     (run_log w args)
   /\ preceded_by (attempted notification_call)
        (completed registers_label_schema) (run_log w args)
   /\ preceded_by (attempted notification_call) (completed creates_session)
        (run_log w args)
   /\ preceded_by (attempted notification_call) (completed attaches_dataset)
        (run_log w args))
  /\ (forall c e,
        In (Ev c (Err e)) (run_log w args) -> notification_call c = true ->
        run_outcome w args = Raise e
        /\ exists pre, run_log w args = pre ++ [Ev c (Err e)]
                       /\ all_created pre)
  /\ (forall token email response e,
        In (Ev (users_lookupByEmail token email) (Ok response))
           (run_log w args) ->
        user_id P response = Err e ->
        run_outcome w args = Raise e
        /\ exists pre,
             run_log w args
             = pre ++ [Ev (users_lookupByEmail token email) (Ok response)]
             /\ all_created pre).
Proof.
  run_main.
  all: split; [repeat split; apply preceded_byb_sound; reflexivity|].
  all: split; [failing_call_case|failing_lookup_case].
Qed.


Lemma timestamp_spelled (now : datetime) :
  valid_datetime now ->
  timestamp_of now
  = four_digits (year now) ++ two_digits (month now) ++ two_digits (day now)
    ++ lit "_" ++ two_digits (hour now) ++ two_digits (minute now)
    ++ two_digits (second now).
Proof.
  intros [Hy [Hm [Hd [HH [HM HS]]]]]. unfold timestamp_of.
  rewrite strftime_fields.
  rewrite zero_pad_four by lia. now rewrite !zero_pad_two by lia.
Qed.

(** C7: in every run the session name is the sanitized prefix, an
    underscore, and the clock reading written as four digits of year, two of
    month, two of day, an underscore, two digits each of hour, minute and
    second; the dataset name is catalog, schema and session name joined by
    dots; every call that names the session or the dataset uses them. *)
Theorem names_derived (w : World P) (args : Namespace) :
  let now := clock w [] in
  valid_datetime now ->
  let session_name :=
    safe_prefix (unicode P) (session_name_prefix args) ++ lit "_"
    ++ four_digits (year now) ++ two_digits (month now)
    ++ two_digits (day now) ++ lit "_" ++ two_digits (hour now)
    ++ two_digits (minute now) ++ two_digits (second now) in
  let dataset_name :=
    uc_catalog args ++ lit "." ++ uc_schema args ++ lit "."
    ++ session_name in
  session_name_of (unicode P) args now = session_name
  /\ uc_table_name_of (unicode P) args now = dataset_name
  /\ hd_error (run_log w args) = Some (Now now)
  /\ forall c, In c (calls (run_log w args)) ->
       match c with
       | create_labeling_session name _ _ => name = session_name
       | get_dataset name | create_dataset name => name = dataset_name
       | add_dataset _ name => name = dataset_name
       | _ => True
       end.
Proof.
  intros now Hvalid session_name dataset_name.
  assert (Hs : session_name_of (unicode P) args now = session_name).
  { unfold session_name_of. now rewrite (@timestamp_spelled now Hvalid). }
  assert (Hd : uc_table_name_of (unicode P) args now = dataset_name).
  { unfold uc_table_name_of. now rewrite Hs. }
  split; [exact Hs|]. split; [exact Hd|].
  clearbody dataset_name session_name. subst dataset_name session_name.
  subst now. clear Hvalid.
  run_main.
  all: split; [reflexivity|].
  all: intros c Hc; cbn [calls flat_map app] in Hc; hide_goal; in_cases Hc;
    subst c; show_goal; first [reflexivity | exact I].
Qed.

End WithPlatform.

End JobFacts.

(** ** Concrete runs *)

Module Examples.
Import PyStr Pandas Job PyStrFacts RenameFacts JobFacts.

(** Membership in the log of a concrete run, found by conversion. *)
Ltac in_log := repeat (first [left; reflexivity | right]).

Ltac query_returned :=
  exists [lit "123"], 2%Z, [lit "attributes.timestamp_ms DESC"], (lit "pandas");
  in_log.

(** C1 as stated fails: with no traces in the experiment the run exits, yet
    the [CREATE SCHEMA] statement of step 2 has already been sent. *)
Lemma zero_traces_create_schema :
  ~ (traces_returned
       (run_log (demo_world empty_experiment) (demo_args "" "false"))
       no_traces ->
     rows no_traces = [] ->
     run_outcome (demo_world empty_experiment) (demo_args "" "false")
     = SysExit 1
     /\ forall c,
          In c (calls (run_log (demo_world empty_experiment)
                         (demo_args "" "false"))) ->
          fetches_dataset c = false /\ creates_dataset c = false
          /\ merges c = false /\ registers_label_schema c = false
          /\ creates_session c = false /\ mutates_schema c = false).
Proof.
  intros H.
  assert (Hq : traces_returned
                 (run_log (demo_world empty_experiment)
                    (demo_args "" "false")) no_traces) by query_returned.
  destruct (H Hq eq_refl) as [_ Hall].
  assert (Hsql : In (spark_sql
                       (lit "CREATE SCHEMA IF NOT EXISTS `main`.`agent_review`"))
                    (calls (run_log (demo_world empty_experiment)
                              (demo_args "" "false")))) by in_log.
  destruct (Hall _ Hsql) as [_ [_ [_ [_ [_ Hm]]]]].
  vm_compute in Hm. discriminate Hm.
Qed.

(** The amended C1 on that run. *)
Lemma zero_traces_exit_witness :
  traces_returned
    (run_log (demo_world empty_experiment) (demo_args "" "false")) no_traces
  /\ run_outcome (demo_world empty_experiment) (demo_args "" "false")
     = SysExit 1.
Proof.
  assert (Hq : traces_returned
                 (run_log (demo_world empty_experiment)
                    (demo_args "" "false")) no_traces) by query_returned.
  split; [exact Hq|].
  exact (proj1 (zero_traces_exit (demo_world empty_experiment)
                  (demo_args "" "false") Hq eq_refl)).
Defined.

(** C6 as stated fails: two traces are fetched, the dataset can be neither
    fetched nor created, and the merge is never called. *)
Lemma locked_catalog_no_merge :
  ~ (traces_returned
       (run_log (demo_world catalog_locked) (demo_args "" "false"))
       two_traces ->
     rows two_traces <> [] ->
     exists dataset : Dataset demo,
       filter merges (calls (run_log (demo_world catalog_locked)
                               (demo_args "" "false")))
       = [merge_records dataset
            (rename_response (rename_request two_traces))]).
Proof.
  intros H.
  assert (Hq : traces_returned
                 (run_log (demo_world catalog_locked)
                    (demo_args "" "false")) two_traces) by query_returned.
  destruct (H Hq) as [dataset Hmerge]; [discriminate|].
  apply (f_equal (@List.length _)) in Hmerge.
  vm_compute in Hmerge. discriminate Hmerge.
Qed.

(** The amended C6 on a run where the dataset is created. *)
Lemma merge_receives_traces_witness :
  exists dataset : Dataset demo,
    dataset_resolved (run_log (demo_world all_well) (demo_args "" "false"))
      dataset
    /\ filter merges
         (calls (run_log (demo_world all_well) (demo_args "" "false")))
       = [merge_records dataset
            (rename_response (rename_request two_traces))].
Proof.
  assert (Hq : traces_returned
                 (run_log (demo_world all_well) (demo_args "" "false"))
                 two_traces) by query_returned.
  assert (Hd : exists dataset,
             dataset_resolved
               (run_log (demo_world all_well) (demo_args "" "false"))
               dataset).
  { exists (lit "main.agent_review.agent_review_20260309_140507"),
      (lit "main.agent_review.agent_review_20260309_140507").
    right. in_log. }
  exact (proj1 (merge_receives_traces (demo_world all_well)
                  (demo_args "" "false") Hq
                  ltac:(discriminate) ltac:(discriminate) Hd)).
Defined.

(** C8 on a successful run. *)
Lemma label_schema_registered_witness :
  filter registers_label_schema
    (calls (run_log (demo_world all_well) (demo_args "" "false")))
  = [create_label_schema (lit "conversation_quality") (lit "feedback")
       (lit "Conversation Quality (1" ++ ndash ++ lit "5)")
       {| min_value := 1; max_value := 5 |}
       LABEL_SCHEMA_INSTRUCTION true true].
Proof.
  apply (label_schema_registered (demo_world all_well)
           (demo_args "" "false")).
  reflexivity.
Defined.

(** C3 as stated fails: the flag is "true" and a secret scope is given, the
    experiment has no traces, and the run exits before the notification
    step makes any call. *)
Lemma enabled_without_notification :
  ~ ((exists c : call demo,
         In c (calls (run_log (demo_world empty_experiment)
                        (demo_args "slack" "true")))
         /\ notification_call c = true)
     <-> lower ascii (notify_users (demo_args "slack" "true")) = lit "true"
         /\ slack_secret_scope (demo_args "slack" "true") <> []).
Proof.
  intros [_ H].
  destruct H as [c [Hc Hn]]; [split; [reflexivity|discriminate]|].
  assert (Hf : In c (filter notification_call
                       (calls (run_log (demo_world empty_experiment)
                                 (demo_args "slack" "true")))))
    by (apply filter_In; split; assumption).
  exact Hf.
Qed.

(** The amended C3 on a run with the flag written "True" and a secret
    scope: the step is entered and the message is posted. *)
Lemma notification_gate_witness :
  In (Out [Txt "Sending Slack notification..."])
     (run_log (demo_world all_well) (demo_args "slack" "True"))
  /\ In (py_import "slack_sdk")
        (calls (run_log (demo_world all_well) (demo_args "slack" "True")))
  /\ hd_error (filter notification_call
                 (calls (run_log (demo_world all_well)
                           (demo_args "slack" "True"))))
     = Some (py_import "slack_sdk")
  /\ (existsb (failed notification_call)
        (run_log (demo_world all_well) (demo_args "slack" "True")) = true
      \/ (exists token email response e,
            In (Ev (users_lookupByEmail token email) (Ok response))
               (run_log (demo_world all_well) (demo_args "slack" "True"))
            /\ user_id demo response = Err e)
      \/ existsb (attempted posts_message)
           (run_log (demo_world all_well) (demo_args "slack" "True"))
         = true).
Proof.
  apply (proj2 (proj2 (notification_gate (demo_world all_well)
                         (demo_args "slack" "True")))).
  - exists (lit "agent_review_20260309_140507"),
      (lit "main.agent_review.agent_review_20260309_140507"),
      (lit "agent_review_20260309_140507").
    in_log.
  - split; [reflexivity|discriminate].
Defined.

(** C9 on a run where posting the message fails. *)
Lemma notification_after_creation_witness :
  run_outcome (demo_world slack_down) (demo_args "slack" "true")
  = @Raise demo unit "SlackApiError"%string.
Proof.
  refine (proj1 (proj1 (proj2 (notification_after_creation
                   (demo_world slack_down) (demo_args "slack" "true")))
            (chat_postMessage (lit "xoxb-token") (lit "U123") _)
            ("SlackApiError"%string : Exn demo) _ _)).
  - in_log.
  - reflexivity.
Defined.

(** C7 at the clock reading 2026-03-09 14:05:07. *)
Lemma names_derived_witness :
  session_name_of ascii (demo_args "" "false") demo_clock
  = lit "agent_review_20260309_140507"
  /\ uc_table_name_of ascii (demo_args "" "false") demo_clock
     = lit "main.agent_review.agent_review_20260309_140507".
Proof.
  assert (Hv : valid_datetime demo_clock)
    by (unfold valid_datetime, demo_clock; simpl; lia).
  destruct (names_derived (demo_world all_well) (demo_args "" "false") Hv)
    as [Hs [Hd _]].
  split; [exact Hs|exact Hd].
Defined.
End Examples.

(** * Further properties *)

(** ** Strings, names and columns *)

Module MoreStringFacts.
Import PyStr Pandas Job PyStrFacts RenameFacts JobFacts.

Lemma split_clean (sep : codepoint) (s : str) :
  ~ In sep s -> split sep s = [s].
Proof.
  induction s as [|c s IH]; [reflexivity|].
  intros Hs. simpl. destruct (N.eqb_spec c sep) as [->|Hne].
  - exfalso. apply Hs. now left.
  - rewrite IH; [reflexivity|]. intros H. apply Hs. now right.
Qed.

Lemma split_join (sep : codepoint) (parts : list str) :
  parts <> [] -> Forall (fun t => ~ In sep t) parts ->
  split sep (join [sep] parts) = parts.
Proof.
  induction parts as [|p rest IH]; [congruence|].
  intros _ Hall. inversion Hall as [|? ? Hp Hrest]; subst.
  destruct rest as [|q rest].
  - simpl. now apply split_clean.
  - change (join [sep] (p :: q :: rest))
      with (p ++ sep :: join [sep] (q :: rest)).
    rewrite split_app, (@split_clean sep p Hp), IH; [reflexivity|discriminate|].
    exact Hrest.
Qed.

Section Parsed.
Variable U : Unicode.

Lemma strip_sublist (t : str) (c : codepoint) :
  In c (strip U t) -> In c t.
Proof.
  intros H. destruct (strip_spec U t) as [[l [r [Ht _]]] _].
  rewrite Ht. apply in_or_app. right. apply in_or_app. now left.
Qed.

Lemma parsed_entries (emails : str) :
  Forall (fun e => e <> [] /\ strip U e = e /\ ~ In comma e)
    (parse_reviewer_emails U emails).
Proof.
  unfold parse_reviewer_emails. apply Forall_map, Forall_forall.
  intros t Ht. apply filter_In in Ht. destruct Ht as [Ht Hkeep].
  split; [now destruct (strip U t)|]. split; [apply strip_idempotent|].
  intros Hc. apply strip_sublist in Hc.
  pose proof (split_no_sep comma emails) as Hno.
  rewrite Forall_forall in Hno. exact (Hno t Ht Hc).
Qed.

Lemma stripped_kept (l : list str) :
  Forall (fun e => e <> [] /\ strip U e = e /\ ~ In comma e) l ->
  map (strip U) (filter (fun e => truthy (strip U e)) l) = l.
Proof.
  induction 1 as [|x l [Hx [Hs _]] _ IH]; [reflexivity|].
  simpl. rewrite Hs. destruct x as [|c x]; [congruence|].
  simpl. rewrite Hs. now rewrite IH.
Qed.

(** X1: joining the parsed reviewer list with commas and parsing it again
    gives the same list, and no entry contains a comma. *)
Theorem reviewer_list_round_trip (emails : str) :
  let reviewers := parse_reviewer_emails U emails in
  parse_reviewer_emails U (join [comma] reviewers) = reviewers
  /\ Forall (fun e => ~ In comma e) reviewers.
Proof.
  intros reviewers. pose proof (parsed_entries emails) as Hall.
  fold reviewers in Hall. split.
  - destruct reviewers as [|e rest] eqn:E; [reflexivity|].
    unfold parse_reviewer_emails at 1. rewrite split_join.
    + now apply stripped_kept.
    + discriminate.
    + eapply Forall_impl; [|exact Hall]. now intros a [_ [_ Ha]].
  - eapply Forall_impl; [|exact Hall]. now intros a [_ [_ Ha]].
Qed.

(** X2: sanitizing a sanitized prefix changes nothing, and the sanitizer
    works character by character: the sanitized concatenation is the
    concatenation of the sanitized parts. *)
Theorem sanitizer_stable (a b : str) :
  safe_prefix U (safe_prefix U a) = safe_prefix U a
  /\ safe_prefix U (a ++ b) = safe_prefix U a ++ safe_prefix U b.
Proof.
  rewrite !safe_prefix_map. split.
  - rewrite map_map. apply map_ext. intros c.
    destruct (isalnum U c || N.eqb c underscore) eqn:E.
    + now rewrite E.
    + now rewrite N.eqb_refl, orb_true_r.
  - apply map_app.
Qed.

End Parsed.

(** *** Timestamps and names *)

Lemma two_digits_value (n : N) :
  (n < 100)%N -> digits_value (two_digits n) = n.
Proof.
  intros Hn. apply N.eqb_eq.
  apply (below_forallb (fun n => N.eqb (digits_value (two_digits n)) n)
           (N.to_nat 100)); [vm_compute; reflexivity|exact Hn].
Qed.

Lemma four_digits_value (n : N) :
  (n < 10000)%N -> digits_value (four_digits n) = n.
Proof.
  intros Hn. apply N.eqb_eq.
  apply (below_forallb (fun n => N.eqb (digits_value (four_digits n)) n)
           (N.to_nat 10000)); [vm_compute; reflexivity|exact Hn].
Qed.

Lemma two_digits_inj (n m : N) :
  (n < 100)%N -> (m < 100)%N -> two_digits n = two_digits m -> n = m.
Proof.
  intros Hn Hm H. apply (f_equal digits_value) in H.
  now rewrite !two_digits_value in H.
Qed.

Lemma four_digits_inj (n m : N) :
  (n < 10000)%N -> (m < 10000)%N -> four_digits n = four_digits m -> n = m.
Proof.
  intros Hn Hm H. apply (f_equal digits_value) in H.
  now rewrite !four_digits_value in H.
Qed.

Lemma digit_not (c power n : N) : (c < 48)%N -> digit power n <> c.
Proof.
  unfold digit. generalize (N.modulo (N.div n power) 10). lia.
Qed.

(** X3: for the same arguments, two clock readings give the same session
    name exactly when they agree on year, month, day, hour, minute and
    second; runs within one second collide, others never do. *)
Theorem session_names_by_second (U : Unicode) (args : Namespace)
    (d1 d2 : datetime) :
  valid_datetime d1 -> valid_datetime d2 ->
  (session_name_of U args d1 = session_name_of U args d2
   <-> year d1 = year d2 /\ month d1 = month d2 /\ day d1 = day d2
       /\ hour d1 = hour d2 /\ minute d1 = minute d2
       /\ second d1 = second d2).
Proof.
  intros V1 V2. unfold session_name_of.
  rewrite (timestamp_spelled V1), (timestamp_spelled V2).
  destruct V1 as [Hy1 [Hm1 [Hd1 [HH1 [HM1 HS1]]]]].
  destruct V2 as [Hy2 [Hm2 [Hd2 [HH2 [HM2 HS2]]]]].
  split.
  - intros H. apply app_inv_head in H. apply app_inv_head in H.
    change (lit "_") with [underscore] in H.
    unfold four_digits, two_digits in H. cbn [app] in H.
    injection H as Y3 Y2 Y1 Y0 M1 M0 D1 D0 h1 h0 m1 m0 s1 s0.
    repeat split.
    + apply four_digits_inj; [lia|lia|]. unfold four_digits. congruence.
    + apply two_digits_inj; [lia|lia|]. unfold two_digits. congruence.
    + apply two_digits_inj; [lia|lia|]. unfold two_digits. congruence.
    + apply two_digits_inj; [lia|lia|]. unfold two_digits. congruence.
    + apply two_digits_inj; [lia|lia|]. unfold two_digits. congruence.
    + apply two_digits_inj; [lia|lia|]. unfold two_digits. congruence.
  - intros [-> [-> [-> [-> [-> ->]]]]]. reflexivity.
Qed.

Lemma session_name_no_dot (U : Unicode) (args : Namespace) (now : datetime) :
  valid_datetime now -> isalnum U dot = false ->
  ~ In dot (session_name_of U args now).
Proof.
  intros V Hdot. unfold session_name_of. rewrite (timestamp_spelled V).
  intros H. apply in_app_or in H. destruct H as [H|H].
  - destruct (sanitizer_output U (session_name_prefix args)) as [_ [Hall _]].
    rewrite Forall_forall in Hall. destruct (Hall dot H) as [Ha|Ha].
    + congruence.
    + unfold dot, underscore in Ha. discriminate Ha.
  - change (lit "_") with [underscore] in H.
    unfold four_digits, two_digits in H. cbn [app In] in H.
    repeat match type of H with
           | _ \/ _ => destruct H as [H|H]
           end;
      try contradiction;
      try (revert H; apply digit_not; reflexivity);
      unfold dot, underscore in H; discriminate H.
Qed.

(** X4: when the catalog and the schema contain no dot (and the dot is not
    alphanumeric), splitting the dataset name at dots gives back exactly the
    catalog, the schema and the session name: the sanitizer keeps dots out
    of the table part. *)
Theorem dataset_name_parts (U : Unicode) (args : Namespace) (now : datetime) :
  valid_datetime now -> isalnum U dot = false ->
  ~ In dot (uc_catalog args) -> ~ In dot (uc_schema args) ->
  split dot (uc_table_name_of U args now)
  = [uc_catalog args; uc_schema args; session_name_of U args now].
Proof.
  intros V Hdot Hc Hs. unfold uc_table_name_of.
  change (lit ".") with [dot]. cbn [app].
  rewrite split_app, (@split_clean dot _ Hc).
  rewrite split_app, (@split_clean dot _ Hs).
  now rewrite (@split_clean dot _ (@session_name_no_dot U args now V Hdot)).
Qed.

(** *** Columns after the renames *)

Section Columns.
Variable Cell : Type.
Implicit Type df : DataFrame Cell.

Lemma has_column_rename_old (old new : str) df :
  str_eqb old new = false ->
  has_column old (rename [(old, new)] df) = false.
Proof.
  intros Hne. rewrite has_column_rename.
  induction (columns df) as [|c cs IH]; [reflexivity|].
  simpl. rewrite IH, orb_false_r.
  destruct (str_eqb old c) eqn:E; [exact Hne|exact E].
Qed.

Lemma rename_request_present df :
  has_column (lit "inputs") (rename_request df)
  = has_column (lit "inputs") df || has_column (lit "request") df
  /\ has_column (lit "request") (rename_request df)
     = has_column (lit "request") df && has_column (lit "inputs") df.
Proof.
  unfold rename_request.
  destruct (has_column (lit "request") df) eqn:Hreq;
    destruct (has_column (lit "inputs") df) eqn:Hin; simpl;
    rewrite ?Hreq, ?Hin; try (split; reflexivity).
  split.
  - now apply has_column_rename_new.
  - now apply has_column_rename_old.
Qed.

Lemma rename_response_present df :
  has_column (lit "outputs") (rename_response df)
  = has_column (lit "outputs") df || has_column (lit "response") df
  /\ has_column (lit "response") (rename_response df)
     = has_column (lit "response") df && has_column (lit "outputs") df.
Proof.
  unfold rename_response.
  destruct (has_column (lit "response") df) eqn:Hres;
    destruct (has_column (lit "outputs") df) eqn:Hout; simpl;
    rewrite ?Hres, ?Hout; try (split; reflexivity).
  split.
  - now apply has_column_rename_new.
  - now apply has_column_rename_old.
Qed.

(** X5: after the two renames the table has an inputs column exactly when it
    had inputs or request before, and still has request only when it had
    both; the same for outputs and response; the number of columns is
    unchanged. *)
Theorem renamed_columns_present df :
  let merged := rename_response (rename_request df) in
  has_column (lit "inputs") merged
  = has_column (lit "inputs") df || has_column (lit "request") df
  /\ has_column (lit "request") merged
     = has_column (lit "request") df && has_column (lit "inputs") df
  /\ has_column (lit "outputs") merged
     = has_column (lit "outputs") df || has_column (lit "response") df
  /\ has_column (lit "response") merged
     = has_column (lit "response") df && has_column (lit "outputs") df
  /\ length (columns merged) = length (columns df).
Proof.
  intros merged. subst merged.
  destruct (rename_request_present df) as [Hin Hreq].
  destruct (rename_response_present (rename_request df)) as [Hout Hres].
  repeat split.
  - rewrite rename_response_keeps by reflexivity. exact Hin.
  - rewrite rename_response_keeps by reflexivity. exact Hreq.
  - rewrite Hout. now rewrite !rename_request_keeps by reflexivity.
  - rewrite Hres. now rewrite !rename_request_keeps by reflexivity.
  - rewrite rename_response_columns, rename_request_columns.
    destruct (has_column (lit "response") (rename_request df)
              && negb (has_column (lit "outputs") (rename_request df)));
      destruct (has_column (lit "request") df
                && negb (has_column (lit "inputs") df));
      now rewrite ?length_map.
Qed.

End Columns.

End MoreStringFacts.

(** ** Runs: failure, exit, order and data flow *)

Module MoreJobFacts.
Import PyStr Pandas Job PyStrFacts RenameFacts JobFacts.

Ltac in_list := cbn [In]; repeat (first [left; reflexivity | right]).

Ltac cut_last :=
  match goal with
  | |- exists pre, ?l = pre ++ _ => exists (removelast l); reflexivity
  end.

(** A membership hypothesis about a failed call: keep the cases where the
    event is that failure, with the call and the exception identified. *)
Ltac failed_event Hin :=
  let Hf := fresh "Hf" in
  let Hc := fresh "Hc" in
  hide_goal; in_cases Hin; try discriminate Hin;
  (pose proof (f_equal failure_of Hin) as Hf; cbn [failure_of] in Hf;
   try discriminate Hf; injection Hf as Hf);
  (pose proof (f_equal call_of Hin) as Hc; cbn [call_of] in Hc;
   injection Hc as Hc);
  subst; show_goal.

(** The log ends with a failed call, or with a lookup whose answer has no
    user id. *)
Ltac cut_last_ev :=
  match goal with
  | |- exists pre, ?l = pre ++ _ =>
      exists (removelast l); cbn [removelast app]; reflexivity
  end.

Ltac cut_last_lookup :=
  match goal with
  | |- exists pre, ?l = pre ++ _ /\ _ =>
      exists (removelast l); split;
      [cbn [removelast app]; reflexivity|assumption]
  end.

Section WithPlatform.
Variable P : Platform.

(** X6: [_fetch_traces] raises what the query raises; it exits with status 1,
    after printing the error line, when the table has no rows or no
    columns; otherwise it returns the renamed table, having made the query
    and nothing else. *)
Theorem fetch_traces_outcome (w : World P) (h : history P)
    (experiment_id : str) (num_traces : Z) :
  let query := mlflow_search_traces [experiment_id] num_traces
                 [lit "attributes.timestamp_ms DESC"] (lit "pandas") in
  let out := fst (_fetch_traces experiment_id num_traces w h) in
  let log := snd (_fetch_traces experiment_id num_traces w h) in
  match respond w h query with
  | Err e => out = Raise e /\ log = h ++ [Ev query (Err e)]
  | Ok df =>
      (rows df = [] \/ columns df = [] ->
       out = SysExit 1
       /\ log = h ++ [Ev query (Ok df);
                      Out [Txt "ERROR: No traces found in this experiment."]])
      /\ (rows df <> [] -> columns df <> [] ->
          out = Return (rename_response (rename_request df))
          /\ log = h ++ [Ev query (Ok df)])
  end.
Proof.
  cbv zeta. unfold _fetch_traces. unfold_script.
  destruct (respond w h _) as [df|e]; unfold_script; [|split; reflexivity].
  destruct (empty df) eqn:E; unfold_script; split.
  - intros _. rewrite <- app_assoc. split; reflexivity.
  - intros Hr Hc. rewrite (@empty_false P df Hr Hc) in E. discriminate.
  - intros [Hr|Hc]; exfalso.
    + rewrite (@empty_no_rows P df Hr) in E. discriminate.
    + unfold empty in E. rewrite Hc in E. discriminate.
  - intros _ _. split; reflexivity.
Qed.

(** X7: the only exception [main] swallows is that of the dataset fetch.  Any
    other failed call ends the run with its exception and is the last event
    of the log; and a run that raises ends either with a failed call or with
    a lookup answer that has no user id. *)
Theorem failure_ends_run (w : World P) (args : Namespace) :
  (forall c e,
      In (Ev c (Err e)) (run_log w args) -> fetches_dataset c = false ->
      run_outcome w args = Raise e
      /\ exists pre, run_log w args = pre ++ [Ev c (Err e)])
  /\ (forall e,
        run_outcome w args = Raise e ->
        (exists c pre, run_log w args = pre ++ [Ev c (Err e)])
        \/ (exists token email response pre,
              run_log w args
              = pre ++ [Ev (users_lookupByEmail token email) (Ok response)]
              /\ user_id P response = Err e)).
Proof.
  run_main.
  all: split;
    [ let xc := fresh "xc" in
      let xe := fresh "xe" in
      let Hin := fresh "Hin" in
      let Hn := fresh "Hn" in
      intros xc xe Hin Hn; failed_event Hin; try discriminate Hn;
      (split; [reflexivity|cut_last])
    | let xe := fresh "xe" in
      let Hr := fresh "Hr" in
      intros xe Hr; try discriminate Hr; injection Hr as Hr; subst;
      first [ left; eexists; cut_last_ev
            | right; do 3 eexists; cut_last_lookup ] ].
Qed.


(** X8: once [parse_args()] has returned, the script's own code ends a run
    with [SystemExit] only with status 1 and only when the trace query
    returned an empty table; and whenever the query returns an empty table
    (no rows, or no columns) the run exits with status 1 right after the
    error line.  ([argparse] itself can end the process before that, on a
    usage error or for help; [main] here starts from the parsed
    arguments.) *)
Theorem exit_only_without_traces (w : World P) (args : Namespace) :
  (forall code,
      run_outcome w args = SysExit code ->
      code = 1%Z
      /\ exists df, traces_returned (run_log w args) df /\ empty df = true)
  /\ (forall df,
        traces_returned (run_log w args) df -> empty df = true ->
        run_outcome w args = SysExit 1
        /\ exists pre,
             run_log w args
             = pre ++ [Out [Txt "ERROR: No traces found in this experiment."]]).
Proof.
  run_main.
  all: split.
  all: try (let xc := fresh "xc" in
            let Hx := fresh "Hx" in
            intros xc Hx; discriminate Hx).
  all: try (let xd := fresh "xd" in
            let Hin := fresh "Hin" in
            let He := fresh "He" in
            intros xd [? [? [? [? Hin]]]] He; hide_goal; in_cases Hin;
            try (ev_eq Hin); subst; try congruence; show_goal; fail).
  - intros code Hx. injection Hx as Hx. split; [congruence|].
    eexists. split; [do 4 eexists; in_list|exact Eempty].
  - intros df _ _. split; [reflexivity|cut_last_ev].
Qed.

(** X9: on a run that returns normally the merge, the schema registration,
    the session creation and the attachment all returned, the trace table
    was not empty, exactly one Slack message was posted if notification was
    enabled and none otherwise, and every call that failed was a dataset
    fetch. *)
Theorem successful_run (w : World P) (args : Namespace) :
  run_outcome w args = Return tt ->
  all_created (run_log w args)
  /\ (exists df, traces_returned (run_log w args) df /\ empty df = false)
  /\ length (filter (completed posts_message) (run_log w args))
     = (if notify_enabled (unicode P) args then 1%nat else 0%nat)
  /\ (forall c e,
        In (Ev c (Err e)) (run_log w args) -> fetches_dataset c = true).
Proof.
  run_main.
  all: let H := fresh "H" in intros H; try discriminate H; clear H.
  all: split; [repeat split; reflexivity|].
  all: split;
    [eexists; split; [do 4 eexists; solve [in_list]|eassumption]|].
  all: split; [reflexivity|].
  all: let xc := fresh "xc" in
       let xe := fresh "xe" in
       let Hin := fresh "Hin" in
       intros xc xe Hin; failed_event Hin; reflexivity.
Qed.


(** X10: the stages run in a fixed order, each attempted only after the stage
    before it returned (tracking URI, experiment, Spark, schema statement,
    trace query, dataset resolution, merge, label schema, session,
    attachment), and no call of any kind is made twice in a run. *)
Theorem pipeline_order (w : World P) (args : Namespace) :
  (preceded_by (attempted sets_experiment) (completed sets_tracking_uri)
     (run_log w args)
   /\ preceded_by (attempted starts_spark) (completed sets_experiment)
        (run_log w args)
   /\ preceded_by (attempted issues_sql) (completed starts_spark)
        (run_log w args)
   /\ preceded_by (attempted queries_traces) (completed issues_sql)
        (run_log w args)
   /\ preceded_by (attempted resolves_dataset) (completed queries_traces)
        (run_log w args)
   /\ preceded_by (attempted merges) (completed resolves_dataset)
        (run_log w args)
   /\ preceded_by (attempted registers_label_schema) (completed merges)
        (run_log w args)
   /\ preceded_by (attempted creates_session)
        (completed registers_label_schema) (run_log w args)
   /\ preceded_by (attempted attaches_dataset) (completed creates_session)
        (run_log w args))
  /\ (length (filter sets_tracking_uri (calls (run_log w args))) <= 1
      /\ length (filter sets_experiment (calls (run_log w args))) <= 1
      /\ length (filter starts_spark (calls (run_log w args))) <= 1
      /\ length (filter issues_sql (calls (run_log w args))) <= 1
      /\ length (filter queries_traces (calls (run_log w args))) <= 1
      /\ length (filter fetches_dataset (calls (run_log w args))) <= 1
      /\ length (filter creates_dataset (calls (run_log w args))) <= 1
      /\ length (filter merges (calls (run_log w args))) <= 1
      /\ length (filter registers_label_schema (calls (run_log w args))) <= 1
      /\ length (filter creates_session (calls (run_log w args))) <= 1
      /\ length (filter attaches_dataset (calls (run_log w args))) <= 1
      /\ length (filter fetches_secret (calls (run_log w args))) <= 1
      /\ length (filter looks_up_user (calls (run_log w args))) <= 1
      /\ length (filter posts_message (calls (run_log w args))) <= 1)%nat.
Proof.
  run_main.
  all: split;
    [ repeat split; apply preceded_byb_sound; reflexivity
    | repeat split; apply Nat.leb_le; reflexivity ].
Qed.

(** What each call of a run carries, read off every branch of the run. *)
Lemma calls_carry_arguments (w : World P) (args : Namespace) :
  forall c, In c (calls (run_log w args)) ->
    match c with
    | mlflow_set_tracking_uri uri => uri = lit "databricks"
    | mlflow_set_experiment id => id = experiment_id args
    | spark_sql query =>
        query = lit "CREATE SCHEMA IF NOT EXISTS `" ++ uc_catalog args
                ++ lit "`.`" ++ uc_schema args ++ lit "`"
    | mlflow_search_traces ids n order kind =>
        ids = [experiment_id args] /\ n = num_traces args
        /\ order = [lit "attributes.timestamp_ms DESC"]
        /\ kind = lit "pandas"
    | create_labeling_session _ users schemas =>
        users = parse_reviewer_emails (unicode P) (reviewer_emails args)
        /\ schemas = [lit "conversation_quality"]
    | dbutils_secrets_get scope key =>
        scope = slack_secret_scope args /\ key = lit "slack-bot-token"
    | users_lookupByEmail _ email =>
        email = lit "brennan.beal@databricks.com"
    | py_import module =>
        module = "pyspark.sql"%string \/ module = "slack_sdk"%string
        \/ module = "databricks.sdk.runtime"%string
    | _ => True
    end.
Proof.
  run_main.
  all: let xc := fresh "xc" in
       let Hc := fresh "Hc" in
       intros xc Hc; cbn [calls flat_map app] in Hc; hide_goal; in_cases Hc;
       subst xc; show_goal;
       first [ exact I | reflexivity | repeat split; reflexivity
             | left; reflexivity | right; left; reflexivity
             | right; right; reflexivity ].
Qed.


(** X11: the only SQL statement a run sends is [CREATE SCHEMA IF NOT EXISTS]
    for the given catalog and schema, each between backticks; the job never
    creates a catalog. *)
Theorem sql_only_creates_schema (w : World P) (args : Namespace)
    (query : str) :
  In (spark_sql query) (calls (run_log w args)) ->
  query = lit "CREATE SCHEMA IF NOT EXISTS `" ++ uc_catalog args
          ++ lit "`.`" ++ uc_schema args ++ lit "`".
Proof. intros H. exact (calls_carry_arguments w args _ H). Qed.

(** X12: whatever the reviewer list, the only Slack user a run looks up is
    the fixed address, and the only secret it reads is [slack-bot-token] in
    the scope given. *)
Theorem slack_contacts_fixed (w : World P) (args : Namespace) (c : call P) :
  In c (calls (run_log w args)) ->
  match c with
  | users_lookupByEmail _ email => email = lit "brennan.beal@databricks.com"
  | dbutils_secrets_get scope key =>
      scope = slack_secret_scope args /\ key = lit "slack-bot-token"
  | _ => True
  end.
Proof.
  intros H. pose proof (calls_carry_arguments w args _ H) as Hc.
  destruct c; try exact I; exact Hc.
Qed.

(** X13: the experiment selected and queried is the one given, the query
    asks for at most [--num-traces] traces, newest first, as a pandas table,
    and the session is created for the parsed reviewer list with the one
    schema name that is registered. *)
Theorem arguments_passed_through (w : World P) (args : Namespace)
    (c : call P) :
  In c (calls (run_log w args)) ->
  match c with
  | mlflow_set_experiment id => id = experiment_id args
  | mlflow_search_traces ids n order kind =>
      ids = [experiment_id args] /\ n = num_traces args
      /\ order = [lit "attributes.timestamp_ms DESC"]
      /\ kind = lit "pandas"
  | create_labeling_session _ users schemas =>
      users = parse_reviewer_emails (unicode P) (reviewer_emails args)
      /\ schemas = [lit "conversation_quality"]
  | _ => True
  end.
Proof.
  intros H. pose proof (calls_carry_arguments w args _ H) as Hc.
  destruct c; try exact I; exact Hc.
Qed.

(** X14: whenever the merge is called, its dataset is the one fetched or
    created under the dataset name of the run, and its records are the
    non-empty table the trace query returned, renamed, with the same rows. *)
Theorem merge_data_flow (w : World P) (args : Namespace) :
  forall dataset records r,
    In (Ev (merge_records dataset records) r) (run_log w args) ->
    (In (Ev (get_dataset (uc_table_name_of (unicode P) args (clock w [])))
            (Ok dataset)) (run_log w args)
     \/ In (Ev (create_dataset
                  (uc_table_name_of (unicode P) args (clock w [])))
               (Ok dataset)) (run_log w args))
    /\ exists df,
         traces_returned (run_log w args) df
         /\ empty df = false
         /\ records = rename_response (rename_request df)
         /\ rows records = rows df.
Proof.
  run_main.
  all: let xd := fresh "xd" in
       let xr := fresh "xr" in
       let xa := fresh "xa" in
       let Hin := fresh "Hin" in
       let Hc := fresh "Hc" in
       intros xd xr xa Hin; hide_goal; in_cases Hin; try discriminate Hin;
       (pose proof (f_equal call_of Hin) as Hc; cbn [call_of] in Hc;
        try discriminate Hc; injection Hc as ? ?);
       subst; show_goal;
       (split;
        [ first [left; solve [in_list] | right; solve [in_list]]
        | eexists; split; [do 4 eexists; solve [in_list]|];
          split; [eassumption|]; split; [reflexivity|];
          now rewrite rename_response_rows, rename_request_rows ]).
Qed.

(** X15: the dataset is attached to the session that the session creation
    returned, and under a name whose dataset was resolved and merged into
    before. *)
Theorem attached_dataset_is_merged (w : World P) (args : Namespace) :
  forall session name r,
    In (Ev (add_dataset session name) r) (run_log w args) ->
    (exists n users schemas,
        In (Ev (create_labeling_session n users schemas) (Ok session))
           (run_log w args))
    /\ exists dataset records done,
         In (Ev (merge_records dataset records) (Ok done)) (run_log w args)
         /\ (In (Ev (get_dataset name) (Ok dataset)) (run_log w args)
             \/ In (Ev (create_dataset name) (Ok dataset)) (run_log w args)).
Proof.
  run_main.
  all: let xs := fresh "xs" in
       let xn := fresh "xn" in
       let xa := fresh "xa" in
       let Hin := fresh "Hin" in
       let Hc := fresh "Hc" in
       intros xs xn xa Hin; hide_goal; in_cases Hin; try discriminate Hin;
       (pose proof (f_equal call_of Hin) as Hc; cbn [call_of] in Hc;
        try discriminate Hc; injection Hc as ? ?);
       subst; show_goal;
       (split;
        [ do 3 eexists; solve [in_list]
        | do 3 eexists; split; [solve [in_list]|];
          first [left; solve [in_list] | right; solve [in_list]] ]).
Qed.

(** X16: whenever a message is posted, its token is what the secret store
    returned, its channel is the user id of the lookup answer for the fixed
    address, and its text names the session, the number of rows fetched
    (not the number asked for), the parsed reviewers or (none), and the URL
    of the session the attachment returned. *)
Theorem message_data_flow (w : World P) (args : Namespace) :
  forall token channel text r,
    In (Ev (chat_postMessage token channel text) r) (run_log w args) ->
    let reviewers :=
      parse_reviewer_emails (unicode P) (reviewer_emails args) in
    In (Ev (dbutils_secrets_get (slack_secret_scope args)
              (lit "slack-bot-token")) (Ok token)) (run_log w args)
    /\ (exists response,
          In (Ev (users_lookupByEmail token
                    (lit "brennan.beal@databricks.com")) (Ok response))
             (run_log w args)
          /\ user_id P response = Ok channel)
    /\ exists df created session,
         traces_returned (run_log w args) df
         /\ In (Ev (add_dataset created
                      (uc_table_name_of (unicode P) args (clock w [])))
                   (Ok session)) (run_log w args)
         /\ text
            = lit "*New agent review session created* :clipboard:"
              ++ newline
              ++ bullet ++ lit " *Session:* `"
              ++ session_name_of (unicode P) args (clock w [])
              ++ lit "`" ++ newline
              ++ bullet ++ lit " *Traces:* "
              ++ str_of_int (Z.of_nat (length (rows df)))
              ++ lit " conversations to review" ++ newline
              ++ bullet ++ lit " *Reviewers:* "
              ++ match reviewers with
                 | [] => lit "(none)"
                 | _ :: _ => join (lit ", ") reviewers
                 end
              ++ newline
              ++ bullet ++ lit " *Link:* " ++ url P session.
Proof.
  run_main.
  all: let xt := fresh "xt" in
       let xc := fresh "xc" in
       let xx := fresh "xx" in
       let xa := fresh "xa" in
       let Hin := fresh "Hin" in
       let Hc := fresh "Hc" in
       intros xt xc xx xa Hin; hide_goal; in_cases Hin; try discriminate Hin;
       (pose proof (f_equal call_of Hin) as Hc; cbn [call_of] in Hc;
        try discriminate Hc; injection Hc as ? ? ?);
       subst; show_goal; cbv zeta;
       (split; [solve [in_list]|]);
       (split; [eexists; split; [solve [in_list]|eassumption]|]);
       do 3 eexists;
       (split; [do 4 eexists; solve [in_list]|]);
       (split; [solve [in_list]|]);
       unfold len; rewrite rename_response_rows, rename_request_rows;
       reflexivity.
Qed.
End WithPlatform.

End MoreJobFacts.

(** ** More concrete runs *)

Module MoreExamples.
Import PyStr Pandas Job PyStrFacts RenameFacts JobFacts.
Import MoreStringFacts MoreJobFacts.

(** Membership in the log of a concrete run, found by conversion. *)
Ltac in_log := repeat (first [left; reflexivity | right]).

Lemma demo_clock_valid : valid_datetime demo_clock.
Proof. unfold valid_datetime, demo_clock; simpl; lia. Qed.

(** X3 on two readings 14:05:07 apart by microseconds. *)
Lemma session_names_by_second_witness :
  session_name_of ascii (demo_args "" "false") demo_clock
  = session_name_of ascii (demo_args "" "false") demo_clock_later.
Proof.
  assert (V1 : valid_datetime demo_clock)
    by (unfold valid_datetime, demo_clock; simpl; lia).
  assert (V2 : valid_datetime demo_clock_later)
    by (unfold valid_datetime, demo_clock_later; simpl; lia).
  apply (proj2 (session_names_by_second ascii (demo_args "" "false") V1 V2)).
  repeat split.
Defined.

(** X4 on the example arguments. *)
Lemma dataset_name_parts_witness :
  split dot (uc_table_name_of ascii (demo_args "" "false") demo_clock)
  = [lit "main"; lit "agent_review";
     session_name_of ascii (demo_args "" "false") demo_clock].
Proof.
  assert (V : valid_datetime demo_clock)
    by (unfold valid_datetime, demo_clock; simpl; lia).
  apply (@dataset_name_parts ascii (demo_args "" "false") demo_clock V).
  - reflexivity.
  - cbv. intuition discriminate.
  - cbv. intuition discriminate.
Defined.

(** X6 on a table with two rows and no columns. *)
Lemma fetch_traces_outcome_witness :
  fst (_fetch_traces (lit "123") 2 (demo_world headless_table) [])
  = SysExit 1.
Proof.
  pose proof (fetch_traces_outcome (demo_world headless_table) []
                (lit "123") 2) as H.
  cbv zeta in H. hnf in H.
  exact (proj1 (proj1 H (or_intror eq_refl))).
Defined.

(** X7 on a run where the dataset can be neither fetched nor created. *)
Lemma failure_ends_run_witness :
  run_outcome (demo_world catalog_locked) (demo_args "" "false")
  = @Raise demo unit "PERMISSION_DENIED"%string.
Proof.
  refine (proj1 (proj1 (failure_ends_run (demo_world catalog_locked)
                          (demo_args "" "false"))
                   (create_dataset _)
                   ("PERMISSION_DENIED"%string : Exn demo) _ _)).
  - in_log.
  - reflexivity.
Defined.

(** X8 on the table with rows and no columns. *)
Lemma exit_only_without_traces_witness :
  run_outcome (demo_world headless_table) (demo_args "" "false")
  = SysExit 1.
Proof.
  refine (proj1 (proj2 (exit_only_without_traces (demo_world headless_table)
                          (demo_args "" "false"))
                   rows_without_columns _ _)).
  - exists [lit "123"], 2%Z, [lit "attributes.timestamp_ms DESC"],
      (lit "pandas").
    in_log.
  - reflexivity.
Defined.

(** X9 on a successful run with notification. *)
Lemma successful_run_witness :
  all_created (run_log (demo_world all_well) (demo_args "slack" "true"))
  /\ length (filter (completed posts_message)
               (run_log (demo_world all_well) (demo_args "slack" "true")))
     = 1%nat.
Proof.
  destruct (successful_run (demo_world all_well)
              (demo_args "slack" "true") eq_refl) as [Hc [_ [Hp _]]].
  split; [exact Hc|exact Hp].
Defined.

(** X11 on the example arguments. *)
Lemma sql_only_creates_schema_witness :
  lit "CREATE SCHEMA IF NOT EXISTS `main`.`agent_review`"
  = lit "CREATE SCHEMA IF NOT EXISTS `" ++ lit "main" ++ lit "`.`"
    ++ lit "agent_review" ++ lit "`".
Proof.
  apply (sql_only_creates_schema (demo_world all_well)
           (demo_args "" "false")).
  in_log.
Defined.

(** X12 on the secret fetch of a run with notification. *)
Lemma slack_contacts_fixed_witness :
  lit "slack" = lit "slack" /\ lit "slack-bot-token" = lit "slack-bot-token".
Proof.
  refine (slack_contacts_fixed (demo_world all_well)
            (demo_args "slack" "true")
            (dbutils_secrets_get (lit "slack") (lit "slack-bot-token")) _).
  in_log.
Defined.

(** X13 on the session creation of the example run. *)
Lemma arguments_passed_through_witness :
  [lit "a@x.com"; lit "b@x.com"]
  = parse_reviewer_emails ascii (lit "a@x.com,b@x.com")
  /\ [lit "conversation_quality"] = [lit "conversation_quality"].
Proof.
  refine (arguments_passed_through (demo_world all_well)
            (demo_args "" "false")
            (create_labeling_session (lit "agent_review_20260309_140507")
               [lit "a@x.com"; lit "b@x.com"]
               [lit "conversation_quality"]) _).
  in_log.
Defined.

(** X14 on a run that reuses an existing dataset. *)
Lemma merge_data_flow_witness :
  In (@Ev demo (get_dataset
            (uc_table_name_of ascii (demo_args "slack" "true") demo_clock))
         (Ok (lit "main.agent_review.agent_review_20260309_140507")))
     (run_log (demo_world slack_down) (demo_args "slack" "true"))
  \/ In (@Ev demo (create_dataset
               (uc_table_name_of ascii (demo_args "slack" "true") demo_clock))
            (Ok (lit "main.agent_review.agent_review_20260309_140507")))
        (run_log (demo_world slack_down) (demo_args "slack" "true")).
Proof.
  refine (proj1 (@merge_data_flow demo (demo_world slack_down)
                   (demo_args "slack" "true")
                   (lit "main.agent_review.agent_review_20260309_140507")
                   _ (Ok tt) _)).
  in_log.
Defined.

(** X15 on the example run. *)
Lemma attached_dataset_is_merged_witness :
  exists n users schemas,
    In (@Ev demo (create_labeling_session n users schemas)
          (Ok (lit "agent_review_20260309_140507")))
       (run_log (demo_world all_well) (demo_args "" "false")).
Proof.
  refine (proj1 (@attached_dataset_is_merged demo (demo_world all_well)
                   (demo_args "" "false")
                   (lit "agent_review_20260309_140507")
                   (lit "main.agent_review.agent_review_20260309_140507")
                   (Ok (lit "agent_review_20260309_140507")) _)).
  in_log.
Defined.

(** X16 on a run that posts its message. *)
Lemma message_data_flow_witness :
  In (@Ev demo (dbutils_secrets_get (lit "slack") (lit "slack-bot-token"))
         (Ok (lit "xoxb-token")))
     (run_log (demo_world all_well) (demo_args "slack" "true")).
Proof.
  refine (proj1 (@message_data_flow demo (demo_world all_well)
                   (demo_args "slack" "true")
                   (lit "xoxb-token") (lit "U123") _ (Ok tt) _)).
  in_log.
Defined.

End MoreExamples.
